(** * cremalink: the device domain layer (src/cremalink/domain/device.py)

    A shallow embedding of [device.py]: the command encoder
    [_encode_command], the schema loader [_load_device_map], and the
    [Device] dataclass with its class method [from_map] and its instance
    methods.  Python values that come out of [json.load] are modelled by
    the inductive type [json]; a Python [str] is a Rocq [string] read as a
    sequence of code points below 256 (one [ascii] per code point); a
    [bytearray] is a list of integers in [0, 256); effects (the clock, the
    files, the transport object) are threaded through an explicit [world]
    by a small state-and-exception monad. *)

From Stdlib Require Import ZArith Ascii String List Bool Lia DecimalString.
From stdpp Require Import gmap strings list.

Local Open Scope Z_scope.

(** ** Python strings *)

Definition ord (c : ascii) : Z := Z.of_N (N_of_ascii c).
Definition chr (n : Z) : ascii := ascii_of_N (Z.to_N n).

(** [str.isspace] of a one-character string, for code points below 256:
    TAB..CR, FS..US, SPACE, NEL and NBSP. *)
Definition isspace (c : ascii) : bool :=
  let n := ord c in
  ((9 <=? n) && (n <=? 13)) || ((28 <=? n) && (n <=? 32))
  || (n =? 133) || (n =? 160).

(** [str.lower] of a one-character string, for code points below 256:
    A..Z and the Latin-1 capitals (all of 0xC0..0xDE but the
    multiplication sign 0xD7) move up by 0x20. *)
Definition lower_char (c : ascii) : ascii :=
  let n := ord c in
  if ((65 <=? n) && (n <=? 90))
     || ((192 <=? n) && (n <=? 222) && negb (n =? 215))
  then chr (n + 32) else c.

Fixpoint lower (s : string) : string :=
  match s with
  | EmptyString => EmptyString
  | String c s' => String (lower_char c) (lower s')
  end.

Fixpoint lstrip (s : string) : string :=
  match s with
  | EmptyString => EmptyString
  | String c s' => if isspace c then lstrip s' else s
  end.

Fixpoint rstrip (s : string) : string :=
  match s with
  | EmptyString => EmptyString
  | String c s' =>
      match rstrip s' with
      | EmptyString => if isspace c then EmptyString else String c EmptyString
      | r => String c r
      end
  end.

(** [str.strip()] with no argument. *)
Definition strip (s : string) : string := rstrip (lstrip s).

(** The slice [s[n:]]. *)
Fixpoint str_from (n : nat) (s : string) : string :=
  match n, s with
  | O, _ => s
  | S n', String _ s' => str_from n' s'
  | S _, EmptyString => EmptyString
  end.

(** Truth value of a [str]. *)
Definition str_truthy (s : string) : bool :=
  match s with EmptyString => false | String _ _ => true end.

(** ** Exceptions and outcomes

    The exception classes that the module and the library calls it makes
    can raise; every one of them is a subclass of [Exception].
    [OtherException] stands for any other [Exception] instance raised by
    a collaborator. *)

Inductive exn : Type :=
| ValueError (msg : string)
| TypeError (msg : string)
| AttributeError (msg : string)
| FileNotFoundError (msg : string)
| JSONDecodeError (msg : string)
| OtherException (cls msg : string).

Inductive outcome (A : Type) : Type :=
| Ok (a : A)
| Raise (e : exn).
Arguments Ok {A} a.
Arguments Raise {A} e.

(** ** Values produced by [json.load] *)

#[warnings="-register-all"]
Inductive json : Type :=
| JNull
| JBool (b : bool)
| JInt (z : Z)
| JFloat (m e : Z)   (* the finite double m * 2^e *)
| JStr (s : string)
| JList (l : list json)
| JDict (m : gmap string json).

(** [type(v).__name__] *)
Definition type_name (v : json) : string :=
  match v with
  | JNull => "NoneType"
  | JBool _ => "bool"
  | JInt _ => "int"
  | JFloat _ _ => "float"
  | JStr _ => "str"
  | JList _ => "list"
  | JDict _ => "dict"
  end.

(** [bool(v)] *)
Definition truthy (v : json) : bool :=
  match v with
  | JNull => false
  | JBool b => b
  | JInt z => negb (z =? 0)
  | JFloat m _ => negb (m =? 0)
  | JStr s => str_truthy s
  | JList l => match l with [] => false | _ => true end
  | JDict m => negb (bool_decide (m = ∅))
  end.

(** [isinstance(v, dict)] *)
Definition is_dict (v : json) : bool :=
  match v with JDict _ => true | _ => false end.

(** [v.get(key, dflt)]: only a dict has the attribute. *)
Definition py_get (v : json) (key : string) (dflt : json) : outcome json :=
  match v with
  | JDict m => Ok (default dflt (m !! key))
  | _ => Raise (AttributeError
                 ("'" +:+ type_name v +:+ "' object has no attribute 'get'"))
  end.

(** ** Library codecs: [hex], [bytearray.fromhex], [base64.b64encode] *)

Definition hexdigit (d : Z) : ascii :=
  match String.get (Z.to_nat d) "0123456789abcdef" with
  | Some c => c
  | None => "0"%char
  end.

(** [int.bit_length] *)
Definition bit_length (n : Z) : Z :=
  if n =? 0 then 0 else Z.log2 (Z.abs n) + 1.

(** Number of hexadecimal digits of a non-negative integer: one for 0,
    otherwise the bit length rounded up to whole nibbles. *)
Definition hex_len (n : Z) : nat :=
  if n =? 0 then 1%nat else Z.to_nat ((bit_length n + 3) / 4).

(** The digit of weight [16^i]. *)
Definition nibble (n : Z) (i : nat) : Z :=
  Z.land (Z.shiftr n (4 * Z.of_nat i)) 15.

(** The digits of a non-negative integer, most significant first. *)
Definition hex_digits (n : Z) : string :=
  string_of_list_ascii
    (map (fun i => hexdigit (nibble n i)) (rev (seq 0 (hex_len n)))).

(** [hex(n)] *)
Definition hex (n : Z) : string :=
  if n <? 0 then "-0x" +:+ hex_digits (- n) else "0x" +:+ hex_digits n.

(** Value of a hexadecimal digit, upper or lower case. *)
Definition hex_value (c : ascii) : option Z :=
  let n := ord c in
  if (48 <=? n) && (n <=? 57) then Some (n - 48)
  else if (97 <=? n) && (n <=? 102) then Some (n - 87)
  else if (65 <=? n) && (n <=? 70) then Some (n - 55)
  else None.

(** ASCII whitespace, the characters [fromhex] skips between bytes. *)
Definition Py_ISSPACE (c : ascii) : bool :=
  let n := ord c in ((9 <=? n) && (n <=? 13)) || (n =? 32).

Definition fromhex_error (pos : nat) : exn :=
  ValueError ("non-hexadecimal number found in fromhex() arg at position "
              +:+ NilZero.string_of_uint (Nat.to_uint pos)).

(** Position of the first code point above 127, if any. *)
Fixpoint first_non_ascii (pos : nat) (s : string) : option nat :=
  match s with
  | EmptyString => None
  | String c s' =>
      if 128 <=? ord c then Some pos else first_non_ascii (S pos) s'
  end.

(** The decoding loop: skip whitespace, then read two digits. *)
Fixpoint fromhex_loop (pos : nat) (s : string) : outcome (list Z) :=
  match s with
  | EmptyString => Ok []
  | String c s1 =>
      if Py_ISSPACE c then fromhex_loop (S pos) s1
      else
        match hex_value c with
        | None => Raise (fromhex_error pos)
        | Some top =>
            match s1 with
            | EmptyString => Raise (fromhex_error (S pos))
            | String c2 s2 =>
                match hex_value c2 with
                | None => Raise (fromhex_error (S pos))
                | Some bot =>
                    match fromhex_loop (S (S pos)) s2 with
                    | Ok bs => Ok (top * 16 + bot :: bs)
                    | Raise e => Raise e
                    end
                end
            end
        end
  end.

(** [bytearray.fromhex(s)] for a [str] argument. *)
Definition bytearray_fromhex (s : string) : outcome (list Z) :=
  match first_non_ascii 0 s with
  | Some pos => Raise (fromhex_error pos)
  | None => fromhex_loop 0 s
  end.

Definition b64_char (i : Z) : ascii :=
  match String.get (Z.to_nat i)
          "ABCDEFGHIJKLMNOPQRSTUVWXYZabcdefghijklmnopqrstuvwxyz0123456789+/"
  with
  | Some c => c
  | None => "="%char
  end.

(** [b64encode(bs).decode("utf-8")]: three bytes give four characters,
    the last group is padded with [=]. *)
Fixpoint b64encode (bs : list Z) : string :=
  match bs with
  | [] => EmptyString
  | [a] =>
      String (b64_char (Z.shiftr a 2))
     (String (b64_char (Z.shiftl (Z.land a 3) 4)) "==")
  | [a; b] =>
      String (b64_char (Z.shiftr a 2))
     (String (b64_char (Z.lor (Z.shiftl (Z.land a 3) 4) (Z.shiftr b 4)))
     (String (b64_char (Z.shiftl (Z.land b 15) 2)) "="))
  | a :: b :: c :: rest =>
      String (b64_char (Z.shiftr a 2))
     (String (b64_char (Z.lor (Z.shiftl (Z.land a 3) 4) (Z.shiftr b 4)))
     (String (b64_char (Z.lor (Z.shiftl (Z.land b 15) 2) (Z.shiftr c 6)))
     (String (b64_char (Z.land c 63)) (b64encode rest))))
  end.

(** ** Hexadecimal text, as the specification words it

    "Valid hexadecimal of even length" and "the standard hex decoding",
    written down independently of [bytearray_fromhex], to compare the two. *)

Fixpoint index_in (c : ascii) (s : string) : option nat :=
  match s with
  | EmptyString => None
  | String a s' =>
      if Ascii.eqb a c then Some O else S <$> index_in c s'
  end.

Definition is_hex_digit (c : ascii) : bool :=
  bool_decide (is_Some (index_in c "0123456789abcdefABCDEF")).

Definition digit_of (c : ascii) : Z :=
  match index_in c "0123456789abcdef", index_in c "0123456789ABCDEF" with
  | Some i, _ => Z.of_nat i
  | None, Some i => Z.of_nat i
  | None, None => 0
  end.

Fixpoint all_hex (s : string) : bool :=
  match s with
  | EmptyString => true
  | String c s' => is_hex_digit c && all_hex s'
  end.

Definition valid_hex (s : string) : bool :=
  Nat.even (String.length s) && all_hex s.

Fixpoint hex_decode (s : string) : list Z :=
  match s with
  | String a (String b s') => digit_of a * 16 + digit_of b :: hex_decode s'
  | _ => []
  end.

(** The number a hexadecimal numeral denotes. *)
Definition hex_number (s : string) : Z :=
  fold_left (fun acc c => acc * 16 + digit_of c) (list_ascii_of_string s) 0.

(** Does the text contain a character that [fromhex] skips? *)
Fixpoint has_space (s : string) : bool :=
  match s with
  | EmptyString => false
  | String c s' => Py_ISSPACE c || has_space s'
  end.


(** ** Collaborators

    [device.py] imports its monitor types, the transport base class and
    the device-map lookup from other modules of the package.  They are
    taken as parameters: the three monitor types with the two
    constructors and the one attribute the module uses, the lookup
    [device_map], and the type of the transport object's state. *)

Class Collaborators : Type := {
  MonitorProfile : Type;
  MonitorSnapshot : Type;
  MonitorFrame : Type;
  TransportState : Type;
  (** [MonitorProfile.from_dict(data)] *)
  MonitorProfile_from_dict : json -> outcome MonitorProfile;
  (** [snapshot.raw_b64] *)
  raw_b64 : MonitorSnapshot -> option string;
  (** [MonitorFrame.from_b64(raw)] *)
  MonitorFrame_from_b64 : string -> outcome MonitorFrame;
  (** [device_map(model)], the path of the map shipped for a model *)
  device_map : string -> outcome (option string)
}.

(** What [open(path, "r")] followed by [json.load] makes of a file that
    exists: the document, or the exception that one of the two raises
    ([PermissionError], [IsADirectoryError], [UnicodeDecodeError] for
    bytes that are not text, [JSONDecodeError] for text that is not
    JSON).  A path that names no file is a path the map of files does
    not have. *)
Inductive file : Type :=
| Unreadable (e : exn)
| Document (d : json).

(** Method calls received by the transport object, in order. *)
Inductive tcall : Type :=
| CallConfigure
| CallSendCommand (encoded : string)
| CallRefreshMonitor
| CallGetProperties
| CallGetProperty (name : json)
| CallHealth
| CallGetMonitor
| CallSetMappings (command_map property_map : json).

Section Model.
Context `{Collaborators}.

(** A method of the transport object: it may change the object's state
    and returns or raises. *)
Definition method (A : Type) : Type :=
  TransportState -> outcome A * TransportState.

(** The interface [DeviceTransport].  [set_mappings] is optional:
    [hasattr(transport, "set_mappings")] is [Some]. *)
Record DeviceTransport : Type := {
  tr_configure : method unit;
  tr_send_command : string -> method json;
  tr_refresh_monitor : method json;
  tr_get_properties : method json;
  tr_get_property : json -> method json;
  tr_health : method json;
  tr_get_monitor : method MonitorSnapshot;
  tr_set_mappings : option (json -> json -> method unit)
}.

(** The state the module runs in: [clock] is [int(time.time())]. *)
Record world : Type := World {
  clock : Z;
  files : gmap string file;
  tstate : TransportState;
  calls : list tcall
}.

(** *** The state-and-exception monad *)

Definition M (A : Type) : Type := world -> outcome A * world.

Definition ret {A} (a : A) : M A := fun w => (Ok a, w).

Definition raise {A} (e : exn) : M A := fun w => (Raise e, w).

Definition lift {A} (o : outcome A) : M A := fun w => (o, w).

Definition bind {A B} (m : M A) (k : A -> M B) : M B :=
  fun w =>
    match m w with
    | (Ok a, w') => k a w'
    | (Raise e, w') => (Raise e, w')
    end.

(** [try: m  except Exception: h] *)
Definition try_except {A} (m : M A) (h : exn -> M A) : M A :=
  fun w =>
    match m w with
    | (Ok a, w') => (Ok a, w')
    | (Raise e, w') => h e w'
    end.

(** [int(time.time())] *)
Definition time_time : M Z := fun w => (Ok (clock w), w).

(** [with open(path, "r") as f: json.load(f)] *)
Definition open_json_load (path : string) : M json :=
  fun w =>
    match files w !! path with
    | None =>
        (Raise (FileNotFoundError
                  ("[Errno 2] No such file or directory: '" +:+ path +:+ "'")),
         w)
    | Some (Unreadable e) => (Raise e, w)
    | Some (Document d) => (Ok d, w)
    end.

(** A call of a transport method: it is logged, and runs on the state of
    the transport object. *)
Definition call {A} (c : tcall) (f : method A) : M A :=
  fun w =>
    let (r, t') := f (tstate w) in
    (r, {| clock := clock w; files := files w; tstate := t';
           calls := calls w ++ [c] |}).

End Model.

Notation "'let*' x ':=' m 'in' k" := (bind m (fun x => k))
  (at level 10, x name, m at level 100, k at level 200,
   format "'[v' 'let*'  x  ':='  m  'in' '/' k ']'").

Section Device.
Context `{Collaborators}.

(** Truth value of an [Optional[str]]. *)
Definition opt_truthy (o : option string) : bool :=
  match o with Some s => str_truthy s | None => false end.

Definition _load_device_map (device_map_path : option string) : M json :=
  match device_map_path with
  | Some path =>
      if negb (str_truthy path) then ret (JDict ∅)
      else
        let* data := open_json_load path in
        ret (if is_dict data then data else JDict ∅)
  | None => ret (JDict ∅)
  end.

Definition _encode_command (hex_command : string) : M string :=
  let* head := lift (bytearray_fromhex hex_command) in
  let* now := time_time in
  let* timestamp := lift (bytearray_fromhex (str_from 2 (hex now))) in
  ret (b64encode (head ++ timestamp)).

Record Device : Type := {
  transport : DeviceTransport;
  dsn : option string;
  model : option string;
  nickname : option string;
  ip : option string;
  lan_key : option string;
  scheme : option string;
  is_online : option bool;
  last_seen : option string;
  firmware : option string;
  serial : option string;
  coffee_count : option Z;
  command_map : json;
  property_map : json;
  monitor_profile : MonitorProfile;
  extra : gmap string json
}.

(** The keyword arguments [**kwargs] of [from_map]: values for the
    dataclass fields that [from_map] does not set itself.  These are the
    keywords the constructor accepts; a keyword it refuses (a name that
    is no field, or one of the four that [from_map] passes itself) makes
    [cls(...)] raise [TypeError] at the end of [from_map], and is not a
    value of this record. *)
Record kwargs : Type := {
  kw_dsn : option string;
  kw_model : option string;
  kw_nickname : option string;
  kw_ip : option string;
  kw_lan_key : option string;
  kw_scheme : option string;
  kw_is_online : option bool;
  kw_last_seen : option string;
  kw_firmware : option string;
  kw_serial : option string;
  kw_coffee_count : option Z;
  kw_extra : gmap string json
}.

(** [cls(transport=..., command_map=..., property_map=...,
    monitor_profile=..., **kwargs)] *)
Definition new_Device (transport : DeviceTransport)
    (command_map property_map : json) (monitor_profile : MonitorProfile)
    (kw : kwargs) : Device :=
  {| transport := transport;
     dsn := kw_dsn kw; model := kw_model kw; nickname := kw_nickname kw;
     ip := kw_ip kw; lan_key := kw_lan_key kw; scheme := kw_scheme kw;
     is_online := kw_is_online kw; last_seen := kw_last_seen kw;
     firmware := kw_firmware kw; serial := kw_serial kw;
     coffee_count := kw_coffee_count kw;
     command_map := command_map; property_map := property_map;
     monitor_profile := monitor_profile; extra := kw_extra kw |}.

(** [map_data.get(key, {}) if isinstance(map_data, dict) else {}] *)
Definition section_of (map_data : json) (key : string) : outcome json :=
  if is_dict map_data then py_get map_data key (JDict ∅) else Ok (JDict ∅).

(** [cls_model] is the class attribute [cls.model]: [None] for [Device]
    itself, a model name for a subclass that sets one. *)
Definition from_map (cls_model : option string) (transport : DeviceTransport)
    (device_map_path : option string) (kw : kwargs) : M Device :=
  let* device_map_path :=
    if negb (opt_truthy device_map_path) then
      match cls_model with
      | Some m => if str_truthy m then lift (device_map m) else ret None
      | None => ret None
      end
    else ret device_map_path in
  let* map_data := _load_device_map device_map_path in
  let* command_map := lift (section_of map_data "command_map") in
  let* property_map := lift (section_of map_data "property_map") in
  let* monitor_profile_data := lift (section_of map_data "monitor_profile") in
  let* monitor_profile := lift (MonitorProfile_from_dict monitor_profile_data) in
  let* _ :=
    match tr_set_mappings transport with
    | Some set_mappings =>
        try_except
          (call (CallSetMappings command_map property_map)
                (set_mappings command_map property_map))
          (fun _ => ret tt)
    | None => ret tt
    end in
  ret (new_Device transport command_map property_map monitor_profile kw).

(** The two halves of [from_map], under names of their own so that the
    properties of each can be stated: the schema is loaded first (the
    statements before the [hasattr] test), then the optional hook runs. *)

Definition load_schema (cls_model device_map_path : option string)
  : M (json * json * MonitorProfile) :=
  let* device_map_path :=
    if negb (opt_truthy device_map_path) then
      match cls_model with
      | Some m => if str_truthy m then lift (device_map m) else ret None
      | None => ret None
      end
    else ret device_map_path in
  let* map_data := _load_device_map device_map_path in
  let* command_map := lift (section_of map_data "command_map") in
  let* property_map := lift (section_of map_data "property_map") in
  let* monitor_profile_data := lift (section_of map_data "monitor_profile") in
  let* monitor_profile := lift (MonitorProfile_from_dict monitor_profile_data) in
  ret (command_map, property_map, monitor_profile).

Definition run_set_mappings (transport : DeviceTransport)
    (command_map property_map : json) : M unit :=
  match tr_set_mappings transport with
  | Some set_mappings =>
      try_except
        (call (CallSetMappings command_map property_map)
              (set_mappings command_map property_map))
        (fun _ => ret tt)
  | None => ret tt
  end.

(** The world after one more call on the transport. *)
Definition after_call (w : world) (c : tcall) (t' : TransportState) : world :=
  {| clock := clock w; files := files w; tstate := t';
     calls := calls w ++ [c] |}.

(** *** Transport delegations *)

Definition configure (self : Device) : M unit :=
  call CallConfigure (tr_configure (transport self)).

Definition send_command (self : Device) (command : string) : M json :=
  let* encoded := _encode_command command in
  call (CallSendCommand encoded) (tr_send_command (transport self) encoded).

Definition refresh_monitor (self : Device) : M json :=
  call CallRefreshMonitor (tr_refresh_monitor (transport self)).

Definition get_properties (self : Device) : M json :=
  call CallGetProperties (tr_get_properties (transport self)).

(** *** Property map helpers *)

(** [default or alias] *)
Definition default_or (default : option string) (alias : string) : string :=
  match default with
  | Some d => if str_truthy d then d else alias
  | None => alias
  end.

Definition resolve_property (self : Device) (alias : string)
    (default : option string) : outcome json :=
  py_get (property_map self) alias (JStr (default_or default alias)).

Definition get_property (self : Device) (name : string) : M json :=
  let* actual_name := lift (resolve_property self name (Some name)) in
  call (CallGetProperty actual_name)
       (tr_get_property (transport self) actual_name).

Definition health (self : Device) : M json :=
  call CallHealth (tr_health (transport self)).

(** *** Command map helpers *)

(** [drink_name.lower().strip()] *)
Definition command_key (drink_name : string) : string :=
  strip (lower drink_name).

(** [command_map.get(key, {}).get("command")] *)
Definition lookup_command (command_map : json) (key : string) : outcome json :=
  match py_get command_map key (JDict ∅) with
  | Ok entry => py_get entry "command" JNull
  | Raise e => Raise e
  end.

Definition do (self : Device) (drink_name : string) : M json :=
  let key := command_key drink_name in
  let* hex_command := lift (lookup_command (command_map self) key) in
  if negb (truthy hex_command) then
    raise (ValueError
             ("Command '" +:+ key +:+ "' not implemented; check device_map."))
  else
    match hex_command with
    | JStr s => send_command self s
    | v =>
        (* [bytearray.fromhex] refuses an argument that is not a [str] *)
        raise (TypeError
                 ("fromhex() argument must be str, not " +:+ type_name v))
    end.

(** *** Monitor helpers *)

(** The class [MonitorView] is imported from another module of the
    package.  A view is modelled by what the constructor call
    [MonitorView(snapshot=..., profile=...)] hands over: the snapshot and
    the profile, as values. *)
Record MonitorView : Type := {
  snapshot : MonitorSnapshot;
  profile : MonitorProfile
}.

Definition get_monitor_snapshot (self : Device) : M MonitorSnapshot :=
  call CallGetMonitor (tr_get_monitor (transport self)).

Definition get_monitor (self : Device) : M MonitorView :=
  let* snapshot := get_monitor_snapshot self in
  ret {| snapshot := snapshot; profile := monitor_profile self |}.

Definition get_monitor_frame (self : Device) : M (option MonitorFrame) :=
  let* snapshot := get_monitor_snapshot self in
  match raw_b64 snapshot with
  | Some raw =>
      if negb (str_truthy raw) then ret None
      else
        try_except
          (let* frame := lift (MonitorFrame_from_b64 raw) in ret (Some frame))
          (fun _ => ret None)
  | None => ret None
  end.

End Device.

(** ** The key listings, and decoders to read payloads back *)

(** [list(v.keys())]: only a dict has the attribute.  Python lists the
    keys in the order of insertion; a [gmap] lists them in its own order,
    so only what does not depend on the order is stated of this list. *)
Definition py_keys (v : json) : outcome (list string) :=
  match v with
  | JDict m => Ok (map_to_list m).*1
  | _ => Raise (AttributeError
                 ("'" +:+ type_name v +:+ "' object has no attribute 'keys'"))
  end.

Section Listings.
Context `{Collaborators}.

Definition get_property_aliases (self : Device) : outcome (list string) :=
  py_keys (property_map self).

Definition get_commands (self : Device) : outcome (list string) :=
  py_keys (command_map self).

End Listings.

(** The number a byte string denotes, most significant byte first. *)
Definition be_value (bs : list Z) : Z :=
  fold_left (fun acc b => acc * 256 + b) bs 0.

(** Standard base64 decoding, to read a payload back: four characters
    give three bytes, and [=] pads the last group. *)
Definition b64_index (c : ascii) : option Z :=
  Z.of_nat <$> index_in c
    "ABCDEFGHIJKLMNOPQRSTUVWXYZabcdefghijklmnopqrstuvwxyz0123456789+/".

Definition is_pad (c : ascii) : bool := Ascii.eqb c "="%char.

Fixpoint b64decode (s : string) : option (list Z) :=
  match s with
  | EmptyString => Some []
  | String c0 (String c1 (String c2 (String c3 rest))) =>
      match b64_index c0, b64_index c1 with
      | Some i0, Some i1 =>
          let b0 := Z.lor (Z.shiftl i0 2) (Z.shiftr i1 4) in
          if is_pad c2 then
            if is_pad c3 && negb (str_truthy rest) then Some [b0] else None
          else
            match b64_index c2 with
            | Some i2 =>
                let b1 := Z.lor (Z.shiftl (Z.land i1 15) 4) (Z.shiftr i2 2) in
                if is_pad c3 then
                  if negb (str_truthy rest) then Some [b0; b1] else None
                else
                  match b64_index c3, b64decode rest with
                  | Some i3, Some bs =>
                      Some (b0 :: b1 :: Z.lor (Z.shiftl (Z.land i2 3) 6) i3
                               :: bs)
                  | _, _ => None
                  end
            | None => None
            end
      | _, _ => None
      end
  | _ => None
  end.

(** A byte. *)
Definition is_byte (b : Z) : Prop := 0 <= b < 256.

(** ** A concrete instantiation

    A small set of collaborators on which the model can be run: a monitor
    profile is the dict it was built from, a snapshot is its [raw_b64]
    field, a frame is the raw string it was decoded from, and the
    transport object holds the telemetry readings still to come. *)

Definition queue_collaborators : Collaborators := {|
  MonitorProfile := gmap string json;
  MonitorSnapshot := option string;
  MonitorFrame := string;
  TransportState := list (option string);
  MonitorProfile_from_dict := fun data =>
    match data with
    | JDict m => Ok m
    | v => Raise (AttributeError
                    ("'" +:+ type_name v +:+ "' object has no attribute 'get'"))
    end;
  raw_b64 := fun snapshot => snapshot;
  MonitorFrame_from_b64 := fun raw => Ok raw;
  device_map := fun m => Ok (Some ("devices/" +:+ m +:+ ".json"))
|}.

(** [get_monitor] hands out the next reading and moves on to the one
    after it; once the readings are used up there is no telemetry. *)
Definition queue_get_monitor
  : @method queue_collaborators (@MonitorSnapshot queue_collaborators) :=
  fun q : list (option string) =>
    match q with
    | r :: q' => (Ok r, q')
    | [] => (Ok None, [])
    end.

(** A transport without the optional [set_mappings] method. *)
Definition queue_transport : @DeviceTransport queue_collaborators := {|
  tr_configure := fun q => (Ok tt, q);
  tr_send_command := fun _ q => (Ok JNull, q);
  tr_refresh_monitor := fun q => (Ok JNull, q);
  tr_get_properties := fun q => (Ok (JDict ∅), q);
  tr_get_property := fun _ q => (Ok JNull, q);
  tr_health := fun q => (Ok (JBool true), q);
  tr_get_monitor := queue_get_monitor;
  tr_set_mappings := None
|}.


Definition no_kwargs : @kwargs := {|
  kw_dsn := None; kw_model := None; kw_nickname := None; kw_ip := None;
  kw_lan_key := None; kw_scheme := None; kw_is_online := None;
  kw_last_seen := None; kw_firmware := None; kw_serial := None;
  kw_coffee_count := None; kw_extra := ∅
|}.

(** The command map [{"latte": {"command": "a1"}}]. *)
Definition latte_map : gmap string json :=
  {[ "latte" := JDict {[ "command" := JStr "a1" ]} ]}.

(** The property map [{"temp": "T1"}]. *)
Definition temp_map : gmap string json := {[ "temp" := JStr "T1" ]}.

Definition latte_device : @Device queue_collaborators :=
  new_Device queue_transport (JDict latte_map) (JDict temp_map) ∅ no_kwargs.

(** A world at 2023-11-14T22:13:20Z with no files and no readings. *)
Definition quiet_world : @world queue_collaborators :=
  @World queue_collaborators 1700000000 ∅ [] [].

(** A device-map file whose [command_map] section is a list, beside a
    file that is not JSON, a file whose bytes are not text, and one
    whose document is a list. *)
Definition odd_document : json :=
  JDict {[ "command_map" := JList [JInt 1] ]}.

Definition shelf_world : @world queue_collaborators :=
  @World queue_collaborators 1700000000
    {[ "odd.json" := Document odd_document;
       "broken.json" := Unreadable (JSONDecodeError "Expecting value");
       "binary.json" :=
         Unreadable (OtherException "UnicodeDecodeError"
                       "'utf-8' codec can't decode byte 0xff in position 0");
       "list.json" := Document (JList []) ]}
    [] [].

(** A reading as a snapshot, and a queue of readings as a transport
    state, of [queue_collaborators]. *)
Definition queue_snapshot (r : option string)
  : @MonitorSnapshot queue_collaborators := r.

Definition queue_state (q : list (option string))
  : @TransportState queue_collaborators := q.

(** A world whose transport has two readings to give, one after the
    other. *)
Definition two_readings_world : @world queue_collaborators :=
  @World queue_collaborators 1700000000 ∅ [Some "AAAA"; Some "BBBB"]%string [].

(** A command map with entries [do] cannot use: no command, an empty
    command, a descriptor that is not a dict, a command that is not a
    string, and a key that is not in normal form. *)
Definition quirky_map : gmap string json :=
  {[ "espresso" := JDict ∅;
     "ristretto" := JDict {[ "command" := JStr "" ]};
     "tea" := JStr "a1";
     "mocha" := JDict {[ "command" := JInt 161 ]};
     "Latte" := JDict {[ "command" := JStr "a1" ]} ]}.

Definition quirky_device : @Device queue_collaborators :=
  new_Device queue_transport (JDict quirky_map) (JList []) ∅ no_kwargs.

(** A file holding a complete device map, for [from_map]. *)
Definition latte_document : json :=
  JDict {[ "command_map" := JDict latte_map;
           "property_map" := JDict temp_map ]}.

Definition latte_world : @world queue_collaborators :=
  @World queue_collaborators 1700000000
    {[ "devices/latte.json" := Document latte_document ]} [] [].

(** A world whose one reading carries telemetry. *)
Definition one_reading_world : @world queue_collaborators :=
  @World queue_collaborators 1700000000 ∅ [Some "AAAA"%string] [].

(** A transport that cannot be reached: every telemetry read raises. *)
Definition offline_transport : @DeviceTransport queue_collaborators := {|
  tr_configure := fun q => (Ok tt, q);
  tr_send_command := fun _ q => (Ok JNull, q);
  tr_refresh_monitor := fun q => (Ok JNull, q);
  tr_get_properties := fun q => (Ok (JDict ∅), q);
  tr_get_property := fun _ q => (Ok JNull, q);
  tr_health := fun q => (Ok (JBool false), q);
  tr_get_monitor := fun q =>
    (Raise (OtherException "ConnectionError" "unreachable"), q);
  tr_set_mappings := None
|}.

Definition offline_device : @Device queue_collaborators :=
  new_Device offline_transport (JDict latte_map) (JDict temp_map) ∅ no_kwargs.

(** * Properties *)

(** ** Strings: [lower] and [strip] *)

Ltac each_char c := destruct c as [[] [] [] [] [] [] [] []]; vm_compute; reflexivity.

Lemma isspace_lower_char c : isspace (lower_char c) = isspace c.
Proof. each_char c. Qed.

Lemma lower_char_idem c : lower_char (lower_char c) = lower_char c.
Proof. each_char c. Qed.

Lemma lower_idem s : lower (lower s) = lower s.
Proof.
  induction s as [|c s IH]; simpl; [reflexivity|].
  now rewrite lower_char_idem, IH.
Qed.

Lemma lower_lstrip s : lower (lstrip s) = lstrip (lower s).
Proof.
  induction s as [|c s IH]; simpl; [reflexivity|].
  rewrite isspace_lower_char. destruct (isspace c); [exact IH | reflexivity].
Qed.

Lemma lower_rstrip s : lower (rstrip s) = rstrip (lower s).
Proof.
  induction s as [|c s IH]; simpl; [reflexivity|].
  rewrite <- IH, isspace_lower_char.
  destruct (rstrip s) as [|c' r]; simpl; [|reflexivity].
  destruct (isspace c); reflexivity.
Qed.

Lemma lower_strip s : lower (strip s) = strip (lower s).
Proof. unfold strip. now rewrite lower_rstrip, lower_lstrip. Qed.

Lemma rstrip_idem s : rstrip (rstrip s) = rstrip s.
Proof.
  induction s as [|c s IH]; simpl; [reflexivity|].
  destruct (rstrip s) as [|c' r] eqn:E.
  - destruct (isspace c) eqn:Ec; simpl; [reflexivity | now rewrite Ec].
  - change (rstrip (String c (String c' r))) with
      (match rstrip (String c' r) with
       | EmptyString => if isspace c then EmptyString else String c EmptyString
       | r0 => String c r0
       end).
    now rewrite IH.
Qed.

(** What [lstrip] returns does not start with a space. *)
Lemma lstrip_head s c r : lstrip s = String c r -> isspace c = false.
Proof.
  induction s as [|a s IH]; simpl; [discriminate|].
  destruct (isspace a) eqn:Ea; [exact IH|].
  intros [= -> _]. exact Ea.
Qed.

(** [rstrip] keeps a first character that is not a space. *)
Lemma rstrip_head c r :
  isspace c = false -> exists r', rstrip (String c r) = String c r'.
Proof.
  intros Hc. simpl. destruct (rstrip r); [rewrite Hc|]; eauto.
Qed.

Lemma strip_idem s : strip (strip s) = strip s.
Proof.
  unfold strip. destruct (lstrip s) as [|c r] eqn:E; [reflexivity|].
  apply lstrip_head in E. destruct (rstrip_head c r E) as [r' Hr].
  rewrite Hr. change (lstrip (String c r')) with
    (if isspace c then lstrip r' else String c r').
  rewrite E, <- Hr. apply rstrip_idem.
Qed.

(** The key [do] looks up is a fixed point of the normalisation, in
    either order of the two steps. *)
Lemma command_key_lower_strip s : command_key (lower (strip s)) = command_key s.
Proof.
  unfold command_key.
  now rewrite lower_idem, lower_strip, strip_idem.
Qed.

Lemma command_key_idem s : command_key (command_key s) = command_key s.
Proof.
  unfold command_key.
  now rewrite <- lower_strip, strip_idem, lower_strip, lower_idem.
Qed.

Section Aliases.
Context `{Collaborators}.

(** C5.  Command aliases are compared without regard to case and to
    surrounding whitespace: for every device and every alias [s], [do]
    on [s] is [do] on [lower (strip s)] (same result, same effect on the
    transport), and the two look up the same entry of the command map.
    On [{"latte": {"command": "a1"}}] the aliases ["Latte"], [" latte "]
    and ["LATTE"] all resolve to the descriptor of ["latte"] and to its
    command ["a1"]. *)
Theorem do_alias_normalised :
  (forall (self : Device) (s : string) (w : world),
      do self s w = do self (lower (strip s)) w)
  /\ (forall (cm : json) (s : string),
      lookup_command cm (command_key s)
      = lookup_command cm (command_key (lower (strip s)))
      /\ py_get cm (command_key s) (JDict ∅)
         = py_get cm (command_key (lower (strip s))) (JDict ∅))
  /\ Forall (fun s =>
        py_get (JDict latte_map) (command_key s) (JDict ∅)
        = Ok (JDict {[ "command" := JStr "a1" ]})
        /\ lookup_command (JDict latte_map) (command_key s) = Ok (JStr "a1"))
       ["latte"; "Latte"; " latte "; "LATTE"]%string.
Proof.
  split; [|split].
  - intros self s w. unfold do. now rewrite command_key_lower_strip.
  - intros cm s. now rewrite command_key_lower_strip.
  - repeat constructor.
Qed.

(** C4.  [resolve_property] called with the alias alone returns the
    value the property map holds for it, and the alias itself when the
    map has no such key.  The key is compared as it is: on
    [{"temp": "T1"}], ["temp"] gives ["T1"], while ["pressure"],
    ["Temp"] and [" temp "] come back unchanged. *)
Theorem resolve_property_default_to_alias (self : Device)
    (pm : gmap string json) (alias : string) :
  property_map self = JDict pm ->
  (forall raw, pm !! alias = Some raw ->
               resolve_property self alias None = Ok raw)
  /\ (pm !! alias = None ->
      resolve_property self alias None = Ok (JStr alias))
  /\ (pm = temp_map ->
      resolve_property self "temp" None = Ok (JStr "T1")
      /\ resolve_property self "pressure" None = Ok (JStr "pressure")
      /\ resolve_property self "Temp" None = Ok (JStr "Temp")
      /\ resolve_property self " temp " None = Ok (JStr " temp ")).
Proof.
  intros Hpm. unfold resolve_property. rewrite Hpm. simpl.
  split; [|split].
  - intros raw ->. reflexivity.
  - intros ->. reflexivity.
  - intros ->. repeat split.
Qed.

End Aliases.

(** Witness for C4, on the device whose property map is [{"temp": "T1"}]. *)
Lemma resolve_property_default_to_alias_witness :
  resolve_property latte_device "temp" None = Ok (JStr "T1")
  /\ resolve_property latte_device "pressure" None = Ok (JStr "pressure").
Proof.
  destruct (resolve_property_default_to_alias latte_device temp_map "temp"
              eq_refl) as (_ & _ & Hc).
  destruct (Hc eq_refl) as (H1 & H2 & _). split; [exact H1 | exact H2].
Defined.

(** ** [bytearray.fromhex] against the standard decoding *)

Lemma hex_value_spec c :
  hex_value c = if is_hex_digit c then Some (digit_of c) else None.
Proof. each_char c. Qed.

Lemma hex_digit_ascii c : is_hex_digit c = true -> (128 <=? ord c) = false.
Proof. destruct c as [[] [] [] [] [] [] [] []]; vm_compute; congruence. Qed.

Lemma hex_digit_not_space c : is_hex_digit c = true -> Py_ISSPACE c = false.
Proof. destruct c as [[] [] [] [] [] [] [] []]; vm_compute; congruence. Qed.


Lemma valid_hex_pair a b s :
  valid_hex (String a (String b s))
  = is_hex_digit a && is_hex_digit b && valid_hex s.
Proof.
  unfold valid_hex. cbn [String.length all_hex Nat.even].
  destruct (Nat.even (String.length s)), (is_hex_digit a), (is_hex_digit b);
    reflexivity.
Qed.

Lemma valid_hex_single a : valid_hex (String a EmptyString) = false.
Proof. reflexivity. Qed.

(** Induction on the length of a string: the decoding loop consumes one
    character (a space) or two (a byte) at a time. *)
Lemma string_length_ind (P : string -> Prop) :
  (forall s, (forall t, (String.length t < String.length s)%nat -> P t) -> P s) ->
  forall s, P s.
Proof.
  intros step s. remember (String.length s) as n eqn:En.
  revert s En. induction n as [n IH] using lt_wf_ind.
  intros s ->. apply step. intros t Ht. exact (IH _ Ht t eq_refl).
Qed.



(** Every failure of [fromhex] is the same [ValueError]. *)
Lemma fromhex_loop_raises s :
  forall p e, fromhex_loop p s = Raise e -> exists pos, e = fromhex_error pos.
Proof.
  induction s as [s IH] using string_length_ind. intros p e.
  destruct s as [|a s1]; [discriminate|]. cbn [fromhex_loop].
  destruct (Py_ISSPACE a); [apply IH; simpl; lia|].
  destruct (hex_value a); [|intros [= <-]; eauto].
  destruct s1 as [|b s]; [intros [= <-]; eauto|].
  destruct (hex_value b); [|intros [= <-]; eauto].
  destruct (fromhex_loop (S (S p)) s) eqn:E; [discriminate|].
  intros [= <-]. eapply IH; [|exact E]. simpl. lia.
Qed.

Lemma bytearray_fromhex_raises s e :
  bytearray_fromhex s = Raise e -> exists pos, e = fromhex_error pos.
Proof.
  unfold bytearray_fromhex. destruct (first_non_ascii 0 s).
  - intros [= <-]. eauto.
  - apply fromhex_loop_raises.
Qed.

(** Valid text decodes, to the standard decoding. *)
Lemma first_non_ascii_all_hex s p : all_hex s = true -> first_non_ascii p s = None.
Proof.
  revert p. induction s as [|c s IH]; intros p; simpl; [reflexivity|].
  intros [Hc Hs]%andb_true_iff. rewrite (hex_digit_ascii c Hc). now apply IH.
Qed.

Lemma fromhex_loop_valid s :
  forall p, valid_hex s = true -> fromhex_loop p s = Ok (hex_decode s).
Proof.
  induction s as [s IH] using string_length_ind. intros p.
  destruct s as [|a [|b s]].
  - reflexivity.
  - rewrite valid_hex_single. discriminate.
  - rewrite valid_hex_pair.
    intros [[Ha Hb]%andb_true_iff Hs]%andb_true_iff.
    cbn [fromhex_loop hex_decode].
    rewrite (hex_digit_not_space a Ha), !hex_value_spec, Ha, Hb.
    rewrite (IH s ltac:(simpl; lia) _ Hs). reflexivity.
Qed.

Lemma valid_hex_all_hex s : valid_hex s = true -> all_hex s = true.
Proof. unfold valid_hex. now intros [_ ?]%andb_true_iff. Qed.

Lemma bytearray_fromhex_valid s :
  valid_hex s = true -> bytearray_fromhex s = Ok (hex_decode s).
Proof.
  intros Hv. unfold bytearray_fromhex.
  rewrite (first_non_ascii_all_hex s 0 (valid_hex_all_hex s Hv)).
  now apply fromhex_loop_valid.
Qed.

(** Text without whitespace that decodes is valid. *)
Lemma fromhex_loop_ok_valid s :
  forall p bs, has_space s = false -> fromhex_loop p s = Ok bs ->
               valid_hex s = true.
Proof.
  induction s as [s IH] using string_length_ind. intros p bs.
  destruct s as [|a s1]; [reflexivity|]. cbn [fromhex_loop has_space].
  intros [Ha Hs1]%orb_false_iff. rewrite Ha, hex_value_spec.
  destruct (is_hex_digit a) eqn:Da; [|discriminate].
  destruct s1 as [|b s]; [discriminate|].
  cbn [has_space] in Hs1. apply orb_false_iff in Hs1 as [_ Hs].
  rewrite hex_value_spec, valid_hex_pair, Da.
  destruct (is_hex_digit b); [|discriminate].
  destruct (fromhex_loop (S (S p)) s) eqn:E; [|discriminate].
  intros _. simpl. eapply IH; [simpl; lia | exact Hs | exact E].
Qed.

Lemma bytearray_fromhex_invalid s :
  has_space s = false -> valid_hex s = false ->
  exists pos, bytearray_fromhex s = Raise (fromhex_error pos).
Proof.
  intros Hsp Hv. destruct (bytearray_fromhex s) as [bs|e] eqn:E.
  - exfalso. unfold bytearray_fromhex in E.
    destruct (first_non_ascii 0 s); [discriminate|].
    rewrite (fromhex_loop_ok_valid s 0 bs Hsp E) in Hv. discriminate.
  - destruct (bytearray_fromhex_raises s e E) as [pos ->]. eauto.
Qed.



(** ** [hex]: the minimal hexadecimal numeral *)

Lemma nibble_div n i : nibble n i = (n / 16 ^ Z.of_nat i) mod 16.
Proof.
  unfold nibble. change 15 with (Z.ones 4).
  rewrite Z.land_ones, Z.shiftr_div_pow2 by lia.
  now rewrite Z.pow_mul_r by lia.
Qed.

Lemma nibble_range n i : 0 <= nibble n i < 16.
Proof. rewrite nibble_div. apply Z.mod_pos_bound. lia. Qed.

Lemma hexdigit_spec d :
  0 <= d < 16 -> digit_of (hexdigit d) = d /\ is_hex_digit (hexdigit d) = true.
Proof.
  intros Hd. destruct d as [|p|p]; [vm_compute; auto | | lia].
  repeat (destruct p as [p|p|]; try lia); vm_compute; auto.
Qed.

Lemma string_of_list_length (l : list ascii) :
  String.length (string_of_list_ascii l) = length l.
Proof. induction l as [|c l IH]; simpl; congruence. Qed.

Lemma hex_digits_length n : String.length (hex_digits n) = hex_len n.
Proof.
  unfold hex_digits.
  now rewrite string_of_list_length, length_map, length_rev, length_seq.
Qed.

Lemma all_hex_of_list (l : list ascii) :
  Forall (fun c => is_hex_digit c = true) l ->
  all_hex (string_of_list_ascii l) = true.
Proof.
  induction 1 as [|c l Hc _ IH]; simpl; [reflexivity|].
  now rewrite Hc, IH.
Qed.

Lemma hex_digits_all_hex n : all_hex (hex_digits n) = true.
Proof.
  unfold hex_digits. apply all_hex_of_list, List.Forall_forall.
  intros c (i & <- & _)%in_map_iff.
  apply hexdigit_spec, nibble_range.
Qed.

Lemma all_hex_no_space s : all_hex s = true -> has_space s = false.
Proof.
  induction s as [|c s IH]; simpl; [reflexivity|].
  intros [Hc Hs]%andb_true_iff.
  now rewrite (hex_digit_not_space c Hc), IH.
Qed.

(** The digits taken from weight [16^a] upwards, [k] of them, are the
    number [n / 16^a] modulo [16^k]. *)
Lemma nibbles_value n a k :
  fold_right (fun c acc => acc * 16 + digit_of c) 0
    (map (fun i => hexdigit (nibble n i)) (seq a k))
  = (n / 16 ^ Z.of_nat a) mod 16 ^ Z.of_nat k.
Proof.
  revert a. induction k as [|k IH]; intros a.
  - simpl. now rewrite Z.mod_1_r.
  - cbn [seq map fold_right]. rewrite IH.
    destruct (hexdigit_spec _ (nibble_range n a)) as [-> _].
    rewrite nibble_div.
    replace (16 ^ Z.of_nat (S k)) with (16 * 16 ^ Z.of_nat k)
      by (rewrite Nat2Z.inj_succ, Z.pow_succ_r; lia).
    rewrite Z.rem_mul_r by lia.
    replace (16 ^ Z.of_nat (S a)) with (16 ^ Z.of_nat a * 16)
      by (rewrite Nat2Z.inj_succ, Z.pow_succ_r; lia).
    rewrite <- Z.div_div by lia. lia.
Qed.

(** [hex_len n] is the least number of digits that can hold [n]. *)
Lemma hex_len_upper n : 0 <= n -> n < 16 ^ Z.of_nat (hex_len n).
Proof.
  intros Hn. unfold hex_len, bit_length.
  destruct (n =? 0) eqn:E; [apply Z.eqb_eq in E; subst; reflexivity|].
  apply Z.eqb_neq in E. rewrite Z.abs_eq by lia.
  assert (Hl : 0 <= Z.log2 n) by apply Z.log2_nonneg.
  set (L := (Z.log2 n + 1 + 3) / 4).
  assert (HL : Z.log2 n < 4 * L) by (subst L; Z.div_mod_to_equations; lia).
  rewrite Z2Nat.id by lia.
  replace (16 ^ L) with (2 ^ (4 * L)) by (rewrite Z.pow_mul_r by lia; reflexivity).
  apply Z.log2_lt_pow2; lia.
Qed.

Lemma hex_len_lower n : 0 < n -> 16 ^ (Z.of_nat (hex_len n) - 1) <= n.
Proof.
  intros Hn. unfold hex_len, bit_length.
  destruct (n =? 0) eqn:E; [apply Z.eqb_eq in E; lia|].
  rewrite Z.abs_eq by lia.
  assert (Hl : 0 <= Z.log2 n) by apply Z.log2_nonneg.
  set (L := (Z.log2 n + 1 + 3) / 4).
  assert (HL : 1 <= L /\ 4 * (L - 1) <= Z.log2 n)
    by (subst L; Z.div_mod_to_equations; lia).
  rewrite Z2Nat.id by lia.
  replace (16 ^ (L - 1)) with (2 ^ (4 * (L - 1)))
    by (rewrite Z.pow_mul_r by lia; reflexivity).
  transitivity (2 ^ Z.log2 n).
  - apply Z.pow_le_mono_r; lia.
  - apply Z.log2_spec. lia.
Qed.

(** The numeral [hex] writes denotes the number it was given. *)
Lemma hex_digits_value n : 0 <= n -> hex_number (hex_digits n) = n.
Proof.
  intros Hn. unfold hex_number, hex_digits.
  rewrite list_ascii_of_string_of_list_ascii, map_rev.
  rewrite <- (rev_involutive (rev _)), <- fold_left_rev_right, !rev_involutive.
  rewrite nibbles_value. simpl (Z.of_nat 0). rewrite Z.pow_0_r, Z.div_1_r.
  apply Z.mod_small. split; [lia | now apply hex_len_upper].
Qed.

Lemma str_from_hex n : 0 <= n -> str_from 2 (hex n) = hex_digits n.
Proof.
  intros Hn. unfold hex. destruct (n <? 0) eqn:E; [apply Z.ltb_lt in E; lia|].
  reflexivity.
Qed.

(** The timestamp decodes to bytes exactly when its numeral has an even
    number of digits; otherwise [fromhex] raises. *)
Lemma timestamp_bytes_even n :
  0 <= n -> Nat.even (hex_len n) = true ->
  bytearray_fromhex (str_from 2 (hex n)) = Ok (hex_decode (hex_digits n)).
Proof.
  intros Hn He. rewrite str_from_hex by exact Hn.
  apply bytearray_fromhex_valid. unfold valid_hex.
  now rewrite hex_digits_length, He, hex_digits_all_hex.
Qed.

Lemma timestamp_bytes_odd n :
  0 <= n -> Nat.even (hex_len n) = false ->
  exists pos, bytearray_fromhex (str_from 2 (hex n)) = Raise (fromhex_error pos).
Proof.
  intros Hn He. rewrite str_from_hex by exact Hn.
  apply bytearray_fromhex_invalid.
  - apply all_hex_no_space, hex_digits_all_hex.
  - unfold valid_hex. now rewrite hex_digits_length, He.
Qed.

(** ** The command encoder and [send_command] *)

Section Encoding.
Context `{Collaborators}.

(** [_encode_command], step by step: the command is decoded first, then
    the clock is read and the timestamp decoded. *)
Lemma encode_command_run (hex_command : string) (w : world) :
  _encode_command hex_command w
  = match bytearray_fromhex hex_command with
    | Ok head =>
        match bytearray_fromhex (str_from 2 (hex (clock w))) with
        | Ok timestamp => (Ok (b64encode (head ++ timestamp)), w)
        | Raise e => (Raise e, w)
        end
    | Raise e => (Raise e, w)
    end.
Proof.
  unfold _encode_command, bind, lift, time_time, ret.
  destruct (bytearray_fromhex hex_command); [|reflexivity].
  destruct (bytearray_fromhex (str_from 2 (hex (clock w)))); reflexivity.
Qed.

Lemma send_command_run (self : Device) (command : string) (w : world) :
  send_command self command w
  = match _encode_command command w with
    | (Ok encoded, w') =>
        call (CallSendCommand encoded)
             (tr_send_command (transport self) encoded) w'
    | (Raise e, w') => (Raise e, w')
    end.
Proof. reflexivity. Qed.

(** The encoder leaves the world as it found it. *)
Lemma encode_command_pure (hex_command : string) (w : world) :
  snd (_encode_command hex_command w) = w.
Proof.
  rewrite encode_command_run.
  destruct (bytearray_fromhex hex_command); [|reflexivity].
  destruct (bytearray_fromhex (str_from 2 (hex (clock w)))); reflexivity.
Qed.

(** C1.  At the instant whose epoch second is 0x10, the command ["a1"]
    is encoded as the base64 text of the two bytes 0xa1, 0x10: the
    command byte followed by the one byte of the timestamp ["10"].  That
    text is ["oRA="]. *)
Theorem encode_command_a1_at_0x10 :
  forall (fs : gmap string file) (t : TransportState) (cs : list tcall),
    _encode_command "a1" (World 16 fs t cs)
    = (Ok (b64encode [161; 16]), World 16 fs t cs)
    /\ bytearray_fromhex "a1" = Ok [161]
    /\ str_from 2 (hex 16) = "10"%string
    /\ bytearray_fromhex "10" = Ok [16]
    /\ b64encode [161; 16] = "oRA="%string.
Proof. intros fs t cs. repeat split. Qed.

(** C2.  The encoder does not succeed at every instant.  At epoch second
    4294967296 (0x100000000, nine digits) and at epoch second 256 (0x100,
    three digits) the timestamp numeral has an odd number of digits,
    [bytearray.fromhex] raises [ValueError] at the position where the
    missing digit would be, and no payload is produced. *)
Theorem encode_command_odd_timestamp_raises :
  forall (fs : gmap string file) (t : TransportState) (cs : list tcall),
    str_from 2 (hex 4294967296) = "100000000"%string
    /\ _encode_command "a1" (World 4294967296 fs t cs)
       = (Raise (fromhex_error 9), World 4294967296 fs t cs)
    /\ _encode_command "a1" (World 256 fs t cs)
       = (Raise (fromhex_error 3), World 256 fs t cs).
Proof. intros fs t cs. repeat split. Qed.

(** The general picture behind C2: for a clock that is not negative, the
    timestamp is written with [hex_len] digits, the least number that
    holds it, and denotes the clock's value; the encoder returns a
    payload when that number of digits is even and raises when it is
    odd. *)
Lemma encode_command_timestamp (hex_command : string) (w : world) :
  0 <= clock w ->
  valid_hex hex_command = true ->
  hex_number (str_from 2 (hex (clock w))) = clock w
  /\ String.length (str_from 2 (hex (clock w))) = hex_len (clock w)
  /\ (Nat.even (hex_len (clock w)) = true ->
      _encode_command hex_command w
      = (Ok (b64encode (hex_decode hex_command
                        ++ hex_decode (hex_digits (clock w)))), w))
  /\ (Nat.even (hex_len (clock w)) = false ->
      exists pos, _encode_command hex_command w = (Raise (fromhex_error pos), w)).
Proof.
  intros Hc Hv. rewrite encode_command_run, (bytearray_fromhex_valid _ Hv).
  repeat split.
  - rewrite (str_from_hex _ Hc). now apply hex_digits_value.
  - rewrite (str_from_hex _ Hc). apply hex_digits_length.
  - intros He. now rewrite (timestamp_bytes_even _ Hc He).
  - intros He. destruct (timestamp_bytes_odd _ Hc He) as [pos ->]. eauto.
Qed.



End Encoding.




(** ** Construction: [_load_device_map] and [from_map] *)

Section Construction.
Context `{Collaborators}.

(** [from_map] is its two halves in sequence, followed by the
    constructor call. *)
Lemma from_map_run cls_model (transport : DeviceTransport) path kw (w : world) :
  from_map cls_model transport path kw w
  = match load_schema cls_model path w with
    | (Ok (cm, pm, mp), w1) =>
        match run_set_mappings transport cm pm w1 with
        | (Ok _, w2) => (Ok (new_Device transport cm pm mp kw), w2)
        | (Raise e, w2) => (Raise e, w2)
        end
    | (Raise e, w1) => (Raise e, w1)
    end.
Proof.
  unfold from_map, load_schema, run_set_mappings, bind.
  repeat match goal with
         | |- context [match ?x with _ => _ end] =>
             lazymatch x with
             | tr_set_mappings _ => fail
             | _ => destruct x as [[?|?] ?]; try reflexivity
             end
         end.
Qed.

(** The hook step never raises: an exception of [set_mappings] is
    swallowed, and a transport without the method is not called. *)
Lemma run_set_mappings_run (transport : DeviceTransport) cm pm (w : world) :
  run_set_mappings transport cm pm w
  = match tr_set_mappings transport with
    | Some set_mappings =>
        (Ok tt, after_call w (CallSetMappings cm pm)
                  (snd (set_mappings cm pm (tstate w))))
    | None => (Ok tt, w)
    end.
Proof.
  unfold run_set_mappings. destruct (tr_set_mappings transport) as [f|];
    [|reflexivity].
  unfold try_except, call, after_call, ret.
  destruct (f cm pm (tstate w)) as [[[]|e] t']; reflexivity.
Qed.

(** What the first half yields once a path has been settled on. *)
Lemma load_schema_path cls_model (path : string) (w : world) :
  path <> EmptyString ->
  load_schema cls_model (Some path) w
  = match files w !! path with
    | None =>
        (Raise (FileNotFoundError
                  ("[Errno 2] No such file or directory: '" +:+ path +:+ "'")),
         w)
    | Some (Unreadable e) => (Raise e, w)
    | Some (Document (JDict m)) =>
        match MonitorProfile_from_dict
                (default (JDict ∅) (m !! "monitor_profile"%string)) with
        | Ok mp =>
            (Ok (default (JDict ∅) (m !! "command_map"%string),
                 default (JDict ∅) (m !! "property_map"%string), mp), w)
        | Raise e => (Raise e, w)
        end
    | Some (Document _) =>
        match MonitorProfile_from_dict (JDict ∅) with
        | Ok mp => (Ok (JDict ∅, JDict ∅, mp), w)
        | Raise e => (Raise e, w)
        end
    end.
Proof.
  intros Hp. destruct path as [|c path]; [congruence|].
  unfold load_schema, _load_device_map, open_json_load, bind, lift, ret.
  cbn [opt_truthy str_truthy negb].
  destruct (files w !! String c path) as [[e|d]|]; try reflexivity.
  destruct d; cbn [is_dict section_of py_get]; rewrite ?lookup_empty;
    cbn [default];
    match goal with
    | |- context [MonitorProfile_from_dict ?x] =>
        destruct (MonitorProfile_from_dict x); reflexivity
    end.
Qed.

Lemma load_schema_no_path cls_model (path : option string) (w : world) :
  opt_truthy path = false -> opt_truthy cls_model = false ->
  load_schema cls_model path w
  = match MonitorProfile_from_dict (JDict ∅) with
    | Ok mp => (Ok (JDict ∅, JDict ∅, mp), w)
    | Raise e => (Raise e, w)
    end.
Proof.
  intros Hp Hc.
  unfold load_schema, _load_device_map, bind, lift, ret. rewrite Hp.
  cbn [negb].
  destruct cls_model as [m|]; [cbn in Hc; rewrite Hc|];
    cbn [is_dict section_of py_get]; rewrite ?lookup_empty; cbn [default];
    destruct (MonitorProfile_from_dict (JDict ∅)); reflexivity.
Qed.


(** C6, as the code has it.  With the profile constructor accepting the
    empty dict, [from_map] returns a device with empty command and
    property maps and the profile of the empty dict when no path is
    given, when the document is not a dict, and when the dict has none of
    the three keys.  For a document that is a dict each section goes its
    own way: a section whose key is absent is the empty dict, a section
    whose key is present is taken as it is, whatever it holds; the
    device has those two maps and the profile built from the third
    section, and what the profile constructor raises on that section is
    what [from_map] raises.  A path that names no file makes [from_map]
    raise [FileNotFoundError], and a file that [open] or [json.load]
    cannot read makes it raise their exception; in both cases nothing
    else has happened. *)
Theorem from_map_absent_schema_is_empty (transport : DeviceTransport) kw
    (w : world) (empty_profile : MonitorProfile) :
  MonitorProfile_from_dict (JDict ∅) = Ok empty_profile ->
  (forall cls_model path,
      opt_truthy path = false -> opt_truthy cls_model = false ->
      fst (from_map cls_model transport path kw w)
      = Ok (new_Device transport (JDict ∅) (JDict ∅) empty_profile kw))
  /\ (forall cls_model path d,
      path <> EmptyString -> files w !! path = Some (Document d) ->
      is_dict d = false ->
      fst (from_map cls_model transport (Some path) kw w)
      = Ok (new_Device transport (JDict ∅) (JDict ∅) empty_profile kw))
  /\ (forall cls_model path (m : gmap string json),
      path <> EmptyString -> files w !! path = Some (Document (JDict m)) ->
      m !! "command_map"%string = None ->
      m !! "property_map"%string = None ->
      m !! "monitor_profile"%string = None ->
      fst (from_map cls_model transport (Some path) kw w)
      = Ok (new_Device transport (JDict ∅) (JDict ∅) empty_profile kw))
  /\ (forall cls_model path (m : gmap string json) cm pm mpd,
      path <> EmptyString -> files w !! path = Some (Document (JDict m)) ->
      (m !! "command_map"%string = None /\ cm = JDict ∅
       \/ m !! "command_map"%string = Some cm) ->
      (m !! "property_map"%string = None /\ pm = JDict ∅
       \/ m !! "property_map"%string = Some pm) ->
      (m !! "monitor_profile"%string = None /\ mpd = JDict ∅
       \/ m !! "monitor_profile"%string = Some mpd) ->
      (forall mp, MonitorProfile_from_dict mpd = Ok mp ->
         fst (from_map cls_model transport (Some path) kw w)
         = Ok (new_Device transport cm pm mp kw))
      /\ (forall e, MonitorProfile_from_dict mpd = Raise e ->
         from_map cls_model transport (Some path) kw w = (Raise e, w)))
  /\ (forall cls_model path,
      path <> EmptyString -> files w !! path = None ->
      exists msg, from_map cls_model transport (Some path) kw w
                  = (Raise (FileNotFoundError msg), w))
  /\ (forall cls_model path e,
      path <> EmptyString -> files w !! path = Some (Unreadable e) ->
      from_map cls_model transport (Some path) kw w = (Raise e, w)).
Proof.
  intros Hep.
  assert (Hhook : forall cm pm mp (w1 : world),
             fst (match run_set_mappings transport cm pm w1 with
                  | (Ok _, w2) => (Ok (new_Device transport cm pm mp kw), w2)
                  | (Raise e, w2) => (Raise e, w2)
                  end) = Ok (new_Device transport cm pm mp kw)).
  { intros cm pm mp w1. rewrite run_set_mappings_run.
    destruct (tr_set_mappings transport); reflexivity. }
  assert (Hsec : forall (m : gmap string json) k v,
             m !! k = None /\ v = JDict ∅ \/ m !! k = Some v ->
             default (JDict ∅) (m !! k) = v).
  { intros m k v [[-> ->] | ->]; reflexivity. }
  split; [|split; [|split; [|split; [|split]]]].
  - intros cls_model path Hp Hc.
    rewrite from_map_run, (load_schema_no_path _ _ _ Hp Hc), Hep. apply Hhook.
  - intros cls_model path d Hp Hf Hd.
    rewrite from_map_run, (load_schema_path _ _ _ Hp), Hf.
    destruct d; try discriminate Hd; rewrite Hep; apply Hhook.
  - intros cls_model path m Hp Hf Hc Hpm Hmp.
    rewrite from_map_run, (load_schema_path _ _ _ Hp), Hf, Hc, Hpm, Hmp.
    cbn [default]. rewrite Hep. apply Hhook.
  - intros cls_model path m cm pm mpd Hp Hf Hc Hpm Hmp.
    rewrite from_map_run, (load_schema_path _ _ _ Hp), Hf.
    rewrite (Hsec _ _ _ Hc), (Hsec _ _ _ Hpm), (Hsec _ _ _ Hmp).
    split.
    + intros mp ->. apply Hhook.
    + intros e ->. reflexivity.
  - intros cls_model path Hp Hf.
    rewrite from_map_run, (load_schema_path _ _ _ Hp), Hf. eauto.
  - intros cls_model path e Hp Hf.
    now rewrite from_map_run, (load_schema_path _ _ _ Hp), Hf.
Qed.

End Construction.


(** Witness for C6: no path at all, a document that is a list, a dict
    with a [command_map] section only, which is a list, and a file whose
    bytes are not text. *)
Lemma from_map_absent_schema_is_empty_witness :
  fst (from_map None queue_transport None no_kwargs shelf_world)
  = Ok (new_Device queue_transport (JDict ∅) (JDict ∅) ∅ no_kwargs)
  /\ fst (from_map None queue_transport (Some "list.json"%string) no_kwargs
            shelf_world)
     = Ok (new_Device queue_transport (JDict ∅) (JDict ∅) ∅ no_kwargs)
  /\ fst (from_map None queue_transport (Some "odd.json"%string) no_kwargs
            shelf_world)
     = Ok (new_Device queue_transport (JList [JInt 1]) (JDict ∅) ∅ no_kwargs)
  /\ from_map None queue_transport (Some "binary.json"%string) no_kwargs
       shelf_world
     = (Raise (OtherException "UnicodeDecodeError"
                 "'utf-8' codec can't decode byte 0xff in position 0"),
        shelf_world).
Proof.
  pose proof (from_map_absent_schema_is_empty queue_transport no_kwargs
                shelf_world ∅ eq_refl) as (H1 & H2 & _ & H4 & _ & H6).
  split; [|split; [|split]]; cycle 3.
  { refine (H6 None "binary.json"%string _ _ eq_refl). discriminate. }
  - exact (H1 None None eq_refl eq_refl).
  - refine (H2 None "list.json"%string (JList []) _ eq_refl eq_refl).
    discriminate.
  - refine (proj1 (H4 None "odd.json"%string
                     {[ "command_map" := JList [JInt 1] ]}
                     (JList [JInt 1]) (JDict ∅) (JDict ∅) _ eq_refl
                     (or_intror eq_refl) (or_introl (conj eq_refl eq_refl))
                     (or_introl (conj eq_refl eq_refl)))
              ∅ eq_refl).
    discriminate.
Defined.

(** C6 as stated fails: a path that names no file and a file that is not
    JSON make [from_map] raise, and a [command_map] section that is a
    list reaches the device as that list, not as an empty map. *)
Lemma from_map_hard_failures :
  from_map None queue_transport (Some "missing.json"%string) no_kwargs
    shelf_world
  = (Raise (FileNotFoundError
              "[Errno 2] No such file or directory: 'missing.json'"),
     shelf_world)
  /\ from_map None queue_transport (Some "broken.json"%string) no_kwargs
       shelf_world
     = (Raise (JSONDecodeError "Expecting value"), shelf_world)
  /\ fst (from_map None queue_transport (Some "odd.json"%string) no_kwargs
            shelf_world)
     = Ok (new_Device queue_transport (JList [JInt 1]) (JDict ∅) ∅ no_kwargs).
Proof. repeat split. Qed.

(** ** Monitor helpers *)

Section Monitor.
Context `{Collaborators}.

Lemma get_monitor_snapshot_run (self : Device) (w : world) :
  get_monitor_snapshot self w
  = (fst (tr_get_monitor (transport self) (tstate w)),
     after_call w CallGetMonitor
       (snd (tr_get_monitor (transport self) (tstate w)))).
Proof.
  unfold get_monitor_snapshot, call, after_call.
  destruct (tr_get_monitor (transport self) (tstate w)); reflexivity.
Qed.

(** [get_monitor_frame] never raises once the transport has answered:
    whatever [from_b64] raises is turned into [None]. *)
Lemma get_monitor_frame_total (self : Device) (w : world) s t' :
  tr_get_monitor (transport self) (tstate w) = (Ok s, t') ->
  exists frame,
    get_monitor_frame self w = (Ok frame, after_call w CallGetMonitor t').
Proof.
  intros Hs. unfold get_monitor_frame, bind. rewrite get_monitor_snapshot_run, Hs.
  cbn [fst snd]. destruct (raw_b64 s) as [raw|]; [|unfold ret; eauto].
  destruct (str_truthy raw); cbn [negb]; [|unfold ret; eauto].
  unfold try_except, bind, lift, ret.
  destruct (MonitorFrame_from_b64 raw); eauto.
Qed.

(** C9.  When the snapshot the transport hands over has no [raw_b64], or
    an empty one, [get_monitor_frame] returns [None]: it does not raise,
    and the decoder is not consulted. *)
Theorem get_monitor_frame_absent_telemetry (self : Device) (w : world) s t' :
  tr_get_monitor (transport self) (tstate w) = (Ok s, t') ->
  raw_b64 s = None \/ raw_b64 s = Some EmptyString ->
  get_monitor_frame self w = (Ok None, after_call w CallGetMonitor t').
Proof.
  intros Hs Hraw. unfold get_monitor_frame, bind.
  rewrite get_monitor_snapshot_run, Hs. cbn [fst snd].
  destruct Hraw as [-> | ->]; reflexivity.
Qed.

(** C7, as the code has it.  [get_monitor] asks the transport for one
    snapshot, at the time of the call, and the view it returns is made of
    that snapshot and of the device's profile.  The view holds the
    reading, not a way to read again: when the transport's next reading
    differs, the view does not show it, and a second [get_monitor] is
    what returns a view of the new reading. *)
Theorem get_monitor_view_of_snapshot (self : Device) (w : world) s t' :
  tr_get_monitor (transport self) (tstate w) = (Ok s, t') ->
  let view := {| snapshot := s; profile := monitor_profile self |} in
  let w1 := after_call w CallGetMonitor t' in
  get_monitor self w = (Ok view, w1)
  /\ forall s2 t2,
      tr_get_monitor (transport self) t' = (Ok s2, t2) ->
      get_monitor_snapshot self w1 = (Ok s2, after_call w1 CallGetMonitor t2)
      /\ (s2 <> s -> snapshot view <> s2)
      /\ get_monitor self w1
         = (Ok {| snapshot := s2; profile := monitor_profile self |},
            after_call w1 CallGetMonitor t2).
Proof.
  intros Hs view w1.
  assert (Hrun : forall (w0 : world) s0 t0,
             tr_get_monitor (transport self) (tstate w0) = (Ok s0, t0) ->
             get_monitor self w0
             = (Ok {| snapshot := s0; profile := monitor_profile self |},
                after_call w0 CallGetMonitor t0)).
  { intros w0 s0 t0 H0. unfold get_monitor, bind.
    now rewrite get_monitor_snapshot_run, H0. }
  split; [now apply Hrun|].
  intros s2 t2 H2. repeat split.
  - rewrite get_monitor_snapshot_run. subst w1. cbn [tstate after_call].
    now rewrite H2.
  - intros Hne Heq. apply Hne. symmetry. exact Heq.
  - exact (Hrun w1 s2 t2 H2).
Qed.

End Monitor.

(** Witness for C9: a transport with no reading left reports a snapshot
    without telemetry. *)
Lemma get_monitor_frame_absent_telemetry_witness :
  get_monitor_frame latte_device quiet_world
  = (Ok None, after_call quiet_world CallGetMonitor (queue_state [])).
Proof.
  exact (get_monitor_frame_absent_telemetry latte_device quiet_world
           (queue_snapshot None) (queue_state []) eq_refl
           (or_introl eq_refl)).
Defined.

(** Witness for C7: the first of two readings. *)
Lemma get_monitor_view_of_snapshot_witness :
  get_monitor latte_device two_readings_world
  = (Ok {| snapshot := queue_snapshot (Some "AAAA"%string);
           profile := monitor_profile latte_device |},
     after_call two_readings_world CallGetMonitor
       (queue_state [Some "BBBB"%string])).
Proof.
  exact (proj1 (get_monitor_view_of_snapshot latte_device two_readings_world
                  (queue_snapshot (Some "AAAA"%string))
                  (queue_state [Some "BBBB"%string]) eq_refl)).
Defined.

(** C7 as stated fails: a view obtained while the reading was ["AAAA"]
    still shows ["AAAA"] after the transport has moved on to ["BBBB"];
    the latest reading is seen by asking again, not through the view. *)
Lemma monitor_view_keeps_its_snapshot :
  exists view w1 w2,
    get_monitor latte_device two_readings_world = (Ok view, w1)
    /\ get_monitor_snapshot latte_device w1
       = (Ok (queue_snapshot (Some "BBBB"%string)), w2)
    /\ snapshot view = queue_snapshot (Some "AAAA"%string)
    /\ snapshot view <> queue_snapshot (Some "BBBB"%string).
Proof.
  eexists _, _, _. repeat split. discriminate.
Qed.

(** * Further properties *)

(** ** Bytes, big-endian values and base64 *)

Lemma digit_of_range c : 0 <= digit_of c < 16.
Proof.
  assert (Hb : (0 <=? digit_of c) && (digit_of c <? 16) = true) by each_char c.
  apply andb_true_iff in Hb as [?%Z.leb_le ?%Z.ltb_lt]. lia.
Qed.

(** Every byte [fromhex] returns is a byte. *)
Lemma fromhex_loop_bytes s :
  forall p bs, fromhex_loop p s = Ok bs -> Forall is_byte bs.
Proof.
  induction s as [s IH] using string_length_ind. intros p bs.
  destruct s as [|a s1]; [intros [= <-]; constructor|]. cbn [fromhex_loop].
  destruct (Py_ISSPACE a); [apply IH; simpl; lia|].
  rewrite hex_value_spec. destruct (is_hex_digit a); [|discriminate].
  destruct s1 as [|b s]; [discriminate|].
  rewrite hex_value_spec. destruct (is_hex_digit b); [|discriminate].
  destruct (fromhex_loop (S (S p)) s) as [bs'|] eqn:E; [|discriminate].
  intros [= <-]. constructor.
  - pose proof (digit_of_range a). pose proof (digit_of_range b).
    unfold is_byte. lia.
  - eapply IH; [|exact E]. simpl. lia.
Qed.

Lemma bytearray_fromhex_bytes s bs :
  bytearray_fromhex s = Ok bs -> Forall is_byte bs.
Proof.
  unfold bytearray_fromhex. destruct (first_non_ascii 0 s); [discriminate|].
  apply fromhex_loop_bytes.
Qed.

Lemma hex_decode_length s :
  length (hex_decode s) = Nat.div2 (String.length s).
Proof.
  induction s as [s IH] using string_length_ind.
  destruct s as [|a [|b s]]; [reflexivity | reflexivity |].
  cbn [hex_decode length String.length Nat.div2].
  rewrite (IH s); [reflexivity | simpl; lia].
Qed.

(** Read as a number, the bytes of an even-length numeral are the
    numeral. *)
Lemma hex_decode_value_acc s :
  forall acc, Nat.even (String.length s) = true ->
    fold_left (fun acc b => acc * 256 + b) (hex_decode s) acc
    = fold_left (fun acc c => acc * 16 + digit_of c)
        (list_ascii_of_string s) acc.
Proof.
  induction s as [s IH] using string_length_ind. intros acc.
  destruct s as [|a [|b s]]; [reflexivity | discriminate |].
  cbn [String.length Nat.even hex_decode list_ascii_of_string fold_left].
  intros He. rewrite (IH s) by (simpl; lia || exact He).
  f_equal. lia.
Qed.

Lemma hex_decode_value s :
  Nat.even (String.length s) = true -> be_value (hex_decode s) = hex_number s.
Proof. apply hex_decode_value_acc. Qed.

(** [hex_len n] is the one [k] with [16^(k-1) <= n < 16^k]. *)
Lemma hex_len_unique n (k : nat) :
  16 ^ (Z.of_nat k - 1) <= n < 16 ^ Z.of_nat k -> 0 < n -> hex_len n = k.
Proof.
  intros [Hlo Hhi] Hn.
  pose proof (hex_len_lower n Hn) as Hl.
  pose proof (hex_len_upper n ltac:(lia)) as Hu.
  destruct (hex_len n) as [|L] eqn:EL; [simpl in Hu; lia|].
  destruct k as [|k]; [simpl in Hhi; lia|].
  assert (16 ^ (Z.of_nat (S L) - 1) < 16 ^ Z.of_nat (S k)) as H1 by lia.
  assert (16 ^ (Z.of_nat (S k) - 1) < 16 ^ Z.of_nat (S L)) as H2 by lia.
  apply Z.pow_lt_mono_r_iff in H1; [|lia|lia].
  apply Z.pow_lt_mono_r_iff in H2; [|lia|lia].
  lia.
Qed.

(** A clock before the epoch cannot be encoded: [hex] writes a sign, and
    the slice [[2:]] starts at the letter x. *)
Lemma timestamp_bytes_negative n :
  n < 0 -> bytearray_fromhex (str_from 2 (hex n)) = Raise (fromhex_error 0).
Proof.
  intros Hn. unfold hex. destruct (n <? 0) eqn:E; [|apply Z.ltb_ge in E; lia].
  change (str_from 2 ("-0x" +:+ hex_digits (- n)))
    with (String "x" (hex_digits (- n))).
  unfold bytearray_fromhex. cbn [first_non_ascii].
  change (128 <=? ord "x") with false. cbn iota.
  now rewrite (first_non_ascii_all_hex _ 1 (hex_digits_all_hex (- n))).
Qed.

(** Bit operations on bytes, as arithmetic. *)
Lemma lor_shifted x y k :
  0 <= k -> 0 <= y < 2 ^ k -> Z.lor (x * 2 ^ k) y = x * 2 ^ k + y.
Proof.
  intros Hk Hy. symmetry. apply Z.add_nocarry_lor, Z.bits_inj'.
  intros n Hn. rewrite Z.land_spec, Z.bits_0.
  destruct (Z.lt_ge_cases n k) as [Hlt|Hge].
  - now rewrite Z.mul_pow2_bits_low by lia.
  - destruct (Z.eq_dec y 0) as [->|Hy0];
      [now rewrite Z.bits_0, andb_false_r|].
    rewrite (Z.bits_above_log2 y n), andb_false_r; [reflexivity | lia |].
    assert (Z.log2 y < k) by (apply Z.log2_lt_pow2; lia). lia.
Qed.

Lemma land_3 x : Z.land x 3 = x mod 4.
Proof. change 3 with (Z.ones 2). now rewrite Z.land_ones by lia. Qed.

Lemma land_15 x : Z.land x 15 = x mod 16.
Proof. change 15 with (Z.ones 4). now rewrite Z.land_ones by lia. Qed.

Lemma land_63 x : Z.land x 63 = x mod 64.
Proof. change 63 with (Z.ones 6). now rewrite Z.land_ones by lia. Qed.

Ltac to_arith :=
  rewrite ?land_3, ?land_15, ?land_63;
  rewrite ?Z.shiftr_div_pow2, ?Z.shiftl_mul_pow2 by lia;
  change (2 ^ 2) with 4; change (2 ^ 4) with 16; change (2 ^ 6) with 64.

Ltac arith := Z.div_mod_to_equations; lia.

Lemma lor_4 x y : 0 <= y < 4 -> Z.lor (x * 4) y = x * 4 + y.
Proof. intros. now apply (lor_shifted x y 2). Qed.

Lemma lor_16 x y : 0 <= y < 16 -> Z.lor (x * 16) y = x * 16 + y.
Proof. intros. now apply (lor_shifted x y 4). Qed.

Lemma lor_64 x y : 0 <= y < 64 -> Z.lor (x * 64) y = x * 64 + y.
Proof. intros. now apply (lor_shifted x y 6). Qed.

(** The four characters of a group carry the sextets of its bytes. *)
Lemma sextet_1 a b :
  is_byte a -> is_byte b ->
  Z.lor (Z.shiftl (Z.land a 3) 4) (Z.shiftr b 4) = a mod 4 * 16 + b / 16.
Proof. unfold is_byte. intros. to_arith. rewrite lor_16; arith. Qed.

Lemma sextet_2 b c :
  is_byte b -> is_byte c ->
  Z.lor (Z.shiftl (Z.land b 15) 2) (Z.shiftr c 6) = b mod 16 * 4 + c / 64.
Proof. unfold is_byte. intros. to_arith. rewrite lor_4; arith. Qed.

(** ... and the bytes come back from the sextets. *)
Lemma byte_0 i0 i1 :
  0 <= i1 < 64 ->
  Z.lor (Z.shiftl i0 2) (Z.shiftr i1 4) = i0 * 4 + i1 / 16.
Proof. intros. to_arith. rewrite lor_4; arith. Qed.

Lemma byte_1 i1 i2 :
  0 <= i2 < 64 ->
  Z.lor (Z.shiftl (Z.land i1 15) 4) (Z.shiftr i2 2) = i1 mod 16 * 16 + i2 / 4.
Proof. intros. to_arith. rewrite lor_16; arith. Qed.

Lemma byte_2 i2 i3 :
  0 <= i3 < 64 ->
  Z.lor (Z.shiftl (Z.land i2 3) 6) i3 = i2 mod 4 * 64 + i3.
Proof. intros. to_arith. rewrite lor_64; arith. Qed.

(** The alphabet is read back as it was written, and has no [=]. *)
Lemma b64_char_index i :
  0 <= i < 64 -> b64_index (b64_char i) = Some i /\ is_pad (b64_char i) = false.
Proof.
  intros Hi.
  assert (Hall : forallb (fun n =>
            match b64_index (b64_char (Z.of_nat n)) with
            | Some j => (j =? Z.of_nat n) && negb (is_pad (b64_char (Z.of_nat n)))
            | None => false
            end) (seq 0 64) = true) by (vm_compute; reflexivity).
  rewrite List.forallb_forall in Hall.
  specialize (Hall (Z.to_nat i)). rewrite Z2Nat.id in Hall by lia.
  assert (Hin : In (Z.to_nat i) (seq 0 64)) by (apply in_seq; lia).
  specialize (Hall Hin).
  destruct (b64_index (b64_char i)) as [j|]; [|discriminate].
  apply andb_true_iff in Hall as [->%Z.eqb_eq Hp].
  split; [reflexivity|]. now destruct (is_pad (b64_char i)).
Qed.

Lemma list_triple_ind (P : list Z -> Prop) :
  P [] -> (forall a, P [a]) -> (forall a b, P [a; b]) ->
  (forall a b c l, P l -> P (a :: b :: c :: l)) ->
  forall l, P l.
Proof.
  intros H0 H1 H2 H3 l.
  assert (P l /\ (forall a, P (a :: l)) /\ (forall a b, P (a :: b :: l)))
    as [Hl _]; [|exact Hl].
  induction l as [|x l (IH0 & IH1 & IH2)]; repeat split; auto.
Qed.

Lemma b64decode_group c0 c1 c2 c3 rest :
  b64decode (String c0 (String c1 (String c2 (String c3 rest))))
  = match b64_index c0, b64_index c1 with
    | Some i0, Some i1 =>
        let b0 := Z.lor (Z.shiftl i0 2) (Z.shiftr i1 4) in
        if is_pad c2 then
          if is_pad c3 && negb (str_truthy rest) then Some [b0] else None
        else
          match b64_index c2 with
          | Some i2 =>
              let b1 := Z.lor (Z.shiftl (Z.land i1 15) 4) (Z.shiftr i2 2) in
              if is_pad c3 then
                if negb (str_truthy rest) then Some [b0; b1] else None
              else
                match b64_index c3, b64decode rest with
                | Some i3, Some bs =>
                    Some (b0 :: b1 :: Z.lor (Z.shiftl (Z.land i2 3) 6) i3 :: bs)
                | _, _ => None
                end
          | None => None
          end
    | _, _ => None
    end.
Proof. reflexivity. Qed.

(** Base64 round trip: decoding the text of a byte string gives the
    byte string back. *)
Lemma b64decode_b64encode bs :
  Forall is_byte bs -> b64decode (b64encode bs) = Some bs.
Proof.
  induction bs as [| a | a b | a b c l IH] using list_triple_ind; intros Hbs.
  - reflexivity.
  - apply Forall_cons_1 in Hbs as [Ha _]. unfold is_byte in Ha.
    cbn [b64encode]. rewrite b64decode_group.
    assert (H0 : 0 <= Z.shiftr a 2 < 64) by (to_arith; arith).
    assert (H1 : 0 <= Z.shiftl (Z.land a 3) 4 < 64) by (to_arith; arith).
    destruct (b64_char_index _ H0) as [-> _].
    destruct (b64_char_index _ H1) as [-> _].
    cbn zeta. change (is_pad "=") with true. cbn [andb str_truthy negb].
    rewrite byte_0 by exact H1. do 2 f_equal. to_arith. arith.
  - apply Forall_cons_1 in Hbs as [Ha [Hb _]%Forall_cons_1].
    pose proof Ha as Ha'. pose proof Hb as Hb'. unfold is_byte in Ha', Hb'.
    cbn [b64encode]. rewrite b64decode_group.
    assert (H0 : 0 <= Z.shiftr a 2 < 64) by (to_arith; arith).
    assert (H1 : 0 <= a mod 4 * 16 + b / 16 < 64) by arith.
    assert (H2 : 0 <= Z.shiftl (Z.land b 15) 2 < 64) by (to_arith; arith).
    rewrite (sextet_1 a b Ha Hb).
    destruct (b64_char_index _ H0) as [-> _].
    destruct (b64_char_index _ H1) as [-> _].
    destruct (b64_char_index _ H2) as [-> ->].
    cbn zeta. change (is_pad "=") with true. cbn [str_truthy negb].
    rewrite byte_0 by exact H1. rewrite byte_1 by exact H2.
    f_equal. f_equal; [to_arith; arith|]. f_equal. to_arith. arith.
  - apply Forall_cons_1 in Hbs as [Ha [Hb [Hc Hl]%Forall_cons_1]%Forall_cons_1].
    pose proof Ha as Ha'. pose proof Hb as Hb'. pose proof Hc as Hc'.
    unfold is_byte in Ha', Hb', Hc'.
    cbn [b64encode]. rewrite b64decode_group.
    assert (H0 : 0 <= Z.shiftr a 2 < 64) by (to_arith; arith).
    assert (H1 : 0 <= a mod 4 * 16 + b / 16 < 64) by arith.
    assert (H2 : 0 <= b mod 16 * 4 + c / 64 < 64) by arith.
    assert (H3 : 0 <= Z.land c 63 < 64) by (to_arith; arith).
    rewrite (sextet_1 a b Ha Hb), (sextet_2 b c Hb Hc).
    destruct (b64_char_index _ H0) as [-> _].
    destruct (b64_char_index _ H1) as [-> _].
    destruct (b64_char_index _ H2) as [-> ->].
    destruct (b64_char_index _ H3) as [-> ->].
    cbn zeta. rewrite (IH Hl).
    rewrite byte_0 by exact H1. rewrite byte_1 by exact H2.
    rewrite byte_2 by exact H3.
    f_equal. f_equal; [to_arith; arith|]. f_equal; [arith|].
    f_equal. to_arith. arith.
Qed.

(** The text of [n] bytes has four characters for every three bytes,
    the last group counted whole. *)
Lemma b64encode_length bs :
  String.length (b64encode bs) = (4 * ((length bs + 2) / 3))%nat.
Proof.
  induction bs as [| a | a b | a b c l IH] using list_triple_ind;
    try reflexivity.
  cbn [b64encode String.length length]. rewrite IH.
  replace (S (S (S (length l))) + 2)%nat with (1 * 3 + (length l + 2))%nat by lia.
  rewrite Nat.div_add_l by lia. lia.
Qed.

(** ** More on the command encoder *)

Section MoreEncoding.
Context `{Collaborators}.

(** X1.  For a command that is valid hexadecimal of even length, the
    encoder returns a payload exactly when the clock is not negative and
    its numeral has an even number of digits. *)
Theorem encode_command_succeeds_iff (hex_command : string) (w : world) :
  valid_hex hex_command = true ->
  (exists encoded, _encode_command hex_command w = (Ok encoded, w))
  <-> 0 <= clock w /\ Nat.even (hex_len (clock w)) = true.
Proof.
  intros Hv. rewrite encode_command_run, (bytearray_fromhex_valid _ Hv).
  split.
  - intros [encoded He].
    destruct (Z.lt_ge_cases (clock w) 0) as [Hneg|Hpos].
    { rewrite (timestamp_bytes_negative _ Hneg) in He. discriminate. }
    split; [exact Hpos|].
    destruct (Nat.even (hex_len (clock w))) eqn:Ev; [reflexivity|].
    destruct (timestamp_bytes_odd _ Hpos Ev) as [pos E].
    rewrite E in He. discriminate.
  - intros [Hpos Ev]. rewrite (timestamp_bytes_even _ Hpos Ev). eauto.
Qed.

(** X2.  From 1978-07-04T21:24:16Z (0x10000000) up to, not including,
    2106-02-07T06:28:16Z (0x100000000) the timestamp is exactly four
    bytes that read, most significant first, as the clock, and every
    valid command is encoded. *)
Theorem encode_command_four_byte_era (hex_command : string) (w : world) :
  valid_hex hex_command = true ->
  268435456 <= clock w < 4294967296 ->
  exists timestamp,
    length timestamp = 4%nat
    /\ Forall is_byte timestamp
    /\ be_value timestamp = clock w
    /\ _encode_command hex_command w
       = (Ok (b64encode (hex_decode hex_command ++ timestamp)), w).
Proof.
  intros Hv Hc.
  assert (Hlen : hex_len (clock w) = 8%nat)
    by (apply hex_len_unique; [exact Hc | lia]).
  assert (Hpos : 0 <= clock w) by lia.
  assert (Hev : Nat.even (hex_len (clock w)) = true) by now rewrite Hlen.
  pose proof (timestamp_bytes_even _ Hpos Hev) as Hts.
  exists (hex_decode (hex_digits (clock w))). repeat split.
  - now rewrite hex_decode_length, hex_digits_length, Hlen.
  - exact (bytearray_fromhex_bytes _ _ Hts).
  - rewrite hex_decode_value by now rewrite hex_digits_length.
    now apply hex_digits_value.
  - now rewrite encode_command_run, (bytearray_fromhex_valid _ Hv), Hts.
Qed.

(** X3.  A payload the encoder returns reads back: its base64 decoding
    is the command's bytes followed by timestamp bytes whose big-endian
    value is the clock.  The encoder leaves the world as it was. *)
Theorem encode_command_payload_decodes (hex_command encoded : string)
    (w w' : world) :
  _encode_command hex_command w = (Ok encoded, w') ->
  exists head timestamp,
    bytearray_fromhex hex_command = Ok head
    /\ b64decode encoded = Some (head ++ timestamp)
    /\ be_value timestamp = clock w
    /\ w' = w.
Proof.
  rewrite encode_command_run.
  destruct (bytearray_fromhex hex_command) as [head|] eqn:Eh; [|discriminate].
  destruct (bytearray_fromhex (str_from 2 (hex (clock w)))) as [ts|] eqn:Et;
    [|discriminate].
  intros [= <- <-]. exists head, ts. repeat split.
  - apply b64decode_b64encode, Forall_app. split.
    + exact (bytearray_fromhex_bytes _ _ Eh).
    + exact (bytearray_fromhex_bytes _ _ Et).
  - destruct (Z.lt_ge_cases (clock w) 0) as [Hneg|Hpos].
    { rewrite (timestamp_bytes_negative _ Hneg) in Et. discriminate. }
    destruct (Nat.even (hex_len (clock w))) eqn:Ev.
    + rewrite (timestamp_bytes_even _ Hpos Ev) in Et. injection Et as <-.
      rewrite hex_decode_value by now rewrite hex_digits_length.
      now apply hex_digits_value.
    + destruct (timestamp_bytes_odd _ Hpos Ev) as [pos E].
      rewrite E in Et. discriminate.
Qed.

(** X4.  The length of a payload follows from the length of the command
    and the number of digits of the clock: four characters for every
    three bytes, the last group counted whole. *)
Theorem encode_command_payload_length (hex_command encoded : string)
    (w w' : world) :
  valid_hex hex_command = true ->
  _encode_command hex_command w = (Ok encoded, w') ->
  String.length encoded
  = (4 * ((Nat.div2 (String.length hex_command)
           + Nat.div2 (hex_len (clock w)) + 2) / 3))%nat.
Proof.
  intros Hv. rewrite encode_command_run, (bytearray_fromhex_valid _ Hv).
  destruct (bytearray_fromhex (str_from 2 (hex (clock w)))) as [ts|] eqn:Et;
    [|discriminate].
  intros [= <- <-].
  destruct (Z.lt_ge_cases (clock w) 0) as [Hneg|Hpos].
  { rewrite (timestamp_bytes_negative _ Hneg) in Et. discriminate. }
  destruct (Nat.even (hex_len (clock w))) eqn:Ev.
  - rewrite (timestamp_bytes_even _ Hpos Ev) in Et. injection Et as <-.
    now rewrite b64encode_length, length_app, !hex_decode_length,
      hex_digits_length.
  - destruct (timestamp_bytes_odd _ Hpos Ev) as [pos E].
    rewrite E in Et. discriminate.
Qed.

End MoreEncoding.

(** Witnesses for X1 to X4, on the command ["a1"] at clock 1700000000
    (0x6553f100). *)
Lemma encode_command_succeeds_iff_witness :
  exists encoded, _encode_command "a1" quiet_world = (Ok encoded, quiet_world).
Proof.
  apply (proj2 (encode_command_succeeds_iff "a1" quiet_world eq_refl)).
  split; [vm_compute; discriminate | reflexivity].
Defined.

Lemma encode_command_four_byte_era_witness :
  exists timestamp,
    length timestamp = 4%nat
    /\ Forall is_byte timestamp
    /\ be_value timestamp = 1700000000
    /\ _encode_command "a1" quiet_world
       = (Ok (b64encode (hex_decode "a1" ++ timestamp)), quiet_world).
Proof.
  apply (encode_command_four_byte_era "a1" quiet_world eq_refl).
  split; [vm_compute; discriminate | reflexivity].
Defined.

Lemma encode_command_payload_decodes_witness :
  exists head timestamp,
    bytearray_fromhex "a1" = Ok head
    /\ b64decode "oWVT8QA=" = Some (head ++ timestamp)
    /\ be_value timestamp = 1700000000
    /\ quiet_world = quiet_world.
Proof.
  exact (encode_command_payload_decodes "a1" "oWVT8QA=" quiet_world quiet_world
           eq_refl).
Defined.

Lemma encode_command_payload_length_witness :
  String.length "oWVT8QA=" = 8%nat.
Proof.
  exact (encode_command_payload_length "a1" "oWVT8QA=" quiet_world quiet_world
           eq_refl eq_refl).
Defined.

(** ** More on [do], the key listings and the property helpers *)

Section MoreCommands.
Context `{Collaborators}.

Lemma call_effect {A} (c : tcall) (f : method A) (w : world) :
  clock (snd (call c f w)) = clock w
  /\ files (snd (call c f w)) = files w
  /\ calls (snd (call c f w)) = calls w ++ [c].
Proof. unfold call. destruct (f (tstate w)). repeat split. Qed.

(** X5.  [do] either raises with the world untouched, or makes exactly
    one call on the transport: [send_command], with the payload the
    encoder returned for the non-empty command found under the key.  It
    calls no other method, and changes neither clock nor files. *)
Theorem do_sends_at_most_once (self : Device) (alias : string) (w : world) :
  (exists e, do self alias w = (Raise e, w))
  \/ (exists hex_command encoded,
        lookup_command (command_map self) (command_key alias)
        = Ok (JStr hex_command)
        /\ hex_command <> EmptyString
        /\ _encode_command hex_command w = (Ok encoded, w)
        /\ do self alias w
           = call (CallSendCommand encoded)
                  (tr_send_command (transport self) encoded) w
        /\ clock (snd (do self alias w)) = clock w
        /\ files (snd (do self alias w)) = files w
        /\ calls (snd (do self alias w))
           = calls w ++ [CallSendCommand encoded]).
Proof.
  unfold do, bind, lift, raise.
  destruct (lookup_command (command_map self) (command_key alias))
    as [v|e]; [|left; eauto].
  destruct (truthy v) eqn:Ev; cbn [negb]; [|left; eauto].
  destruct v as [| | | |s| |]; try (left; eauto; fail).
  rewrite send_command_run, encode_command_run.
  destruct (bytearray_fromhex s) as [head|] eqn:Eh; [|left; eauto].
  destruct (bytearray_fromhex (str_from 2 (hex (clock w)))) as [ts|] eqn:Et;
    [|left; eauto].
  right. exists s, (b64encode (head ++ ts)).
  split; [reflexivity|]. split; [intros ->; discriminate|].
  split; [now rewrite encode_command_run, Eh, Et|].
  repeat split; apply call_effect.
Qed.

(** X6.  An entry without a command, or with one that is empty, null,
    zero or false, is refused like an unknown alias: [ValueError], and
    nothing is sent. *)
Theorem do_rejects_entry_without_command (self : Device)
    (cm entry : gmap string json) (alias : string) (w : world) :
  command_map self = JDict cm ->
  cm !! command_key alias = Some (JDict entry) ->
  (entry !! "command"%string = None
   \/ exists v, entry !! "command"%string = Some v /\ truthy v = false) ->
  do self alias w
  = (Raise (ValueError ("Command '" +:+ command_key alias
                        +:+ "' not implemented; check device_map.")), w).
Proof.
  intros Hcm Hk Hc. unfold do, lookup_command, bind, lift, raise.
  rewrite Hcm. simpl. rewrite Hk. simpl.
  destruct Hc as [-> | (v & -> & Hv)]; simpl; [reflexivity|].
  now rewrite Hv.
Qed.

(** X7.  Malformed command maps make [do] raise before anything is
    sent: [AttributeError] when the command map or the entry under the
    key is not a dict, [TypeError] when the command is a true value that
    is not a string. *)
Theorem do_malformed_command_map (self : Device) (alias : string) (w : world) :
  (is_dict (command_map self) = false ->
   exists msg, do self alias w = (Raise (AttributeError msg), w))
  /\ (forall (cm : gmap string json) entry,
      command_map self = JDict cm ->
      cm !! command_key alias = Some entry ->
      is_dict entry = false ->
      exists msg, do self alias w = (Raise (AttributeError msg), w))
  /\ (forall (cm d : gmap string json) v,
      command_map self = JDict cm ->
      cm !! command_key alias = Some (JDict d) ->
      d !! "command"%string = Some v ->
      truthy v = true ->
      (forall s, v <> JStr s) ->
      exists msg, do self alias w = (Raise (TypeError msg), w)).
Proof.
  unfold do, lookup_command, bind, lift, raise. repeat split.
  - intros Hd. destruct (command_map self); try discriminate Hd; cbn; eauto.
  - intros cm entry -> Hk Hd. simpl. rewrite Hk. simpl.
    destruct entry; try discriminate Hd; simpl; eauto.
  - intros cm d v -> Hk Hc Hv Hs. simpl. rewrite Hk. simpl.
    rewrite Hc. simpl. rewrite Hv. simpl.
    destruct v; eauto. now destruct (Hs s).
Qed.

(** X8.  The key [do] looks up is in normal form: lower case, no
    whitespace at either end.  A key of the command map that is not in
    normal form is never the one looked up, so taking it out of the map
    changes nothing for any alias. *)
Theorem command_key_normal_form (s k : string) :
  (lower (command_key s) = command_key s
   /\ strip (command_key s) = command_key s)
  /\ (command_key k <> k -> command_key s <> k)
  /\ (command_key k <> k ->
      forall cm : gmap string json,
        lookup_command (JDict (delete k cm)) (command_key s)
        = lookup_command (JDict cm) (command_key s)).
Proof.
  assert (Hne : command_key k <> k -> command_key s <> k).
  { intros Hk E. apply Hk. rewrite <- E. apply command_key_idem. }
  repeat split.
  - unfold command_key. now rewrite lower_strip, lower_idem.
  - unfold command_key. apply strip_idem.
  - exact Hne.
  - intros Hk cm. unfold lookup_command, py_get.
    rewrite lookup_delete_ne; [reflexivity|].
    intros E. now apply (Hne Hk).
Qed.

Lemma py_keys_dict (m : gmap string json) :
  exists ks, py_keys (JDict m) = Ok ks
             /\ NoDup ks
             /\ length ks = size m
             /\ forall k, k ∈ ks <-> is_Some (m !! k).
Proof.
  exists (map_to_list m).*1. repeat split.
  - apply NoDup_fst_map_to_list.
  - now rewrite length_fmap, length_map_to_list.
  - intros ((k' & v) & -> & Hin%elem_of_map_to_list)%list_elem_of_fmap. eauto.
  - intros [v Hv]. apply list_elem_of_fmap. exists (k, v).
    split; [reflexivity | now apply elem_of_map_to_list].
Qed.

(** X9.  [get_commands] lists every key of the command map once, and
    [do] refuses every alias whose key is not on the list. *)
Theorem get_commands_lists_keys (self : Device) (cm : gmap string json) :
  command_map self = JDict cm ->
  exists ks,
    get_commands self = Ok ks
    /\ NoDup ks
    /\ length ks = size cm
    /\ (forall k, k ∈ ks <-> is_Some (cm !! k))
    /\ (forall alias w,
          command_key alias ∉ ks ->
          exists msg, do self alias w = (Raise (ValueError msg), w)).
Proof.
  intros Hcm. destruct (py_keys_dict cm) as (ks & Hks & Hnd & Hlen & Hin).
  exists ks. unfold get_commands. rewrite Hcm. repeat split; try assumption.
  - apply Hin.
  - apply Hin.
  - intros alias w Hout.
    assert (Hk : cm !! command_key alias = None).
    { destruct (cm !! command_key alias) eqn:E; [|reflexivity].
      exfalso. apply Hout, Hin. eauto. }
    unfold do, lookup_command, bind, lift, raise. rewrite Hcm. simpl.
    rewrite Hk. simpl. eauto.
Qed.

(** X10.  [get_property_aliases] lists every key of the property map
    once; a listed alias resolves to the value the map holds for it, any
    other name resolves to itself. *)
Theorem get_property_aliases_lists_keys (self : Device)
    (pm : gmap string json) :
  property_map self = JDict pm ->
  exists ks,
    get_property_aliases self = Ok ks
    /\ NoDup ks
    /\ length ks = size pm
    /\ (forall k, k ∈ ks ->
          exists raw, pm !! k = Some raw
                      /\ resolve_property self k None = Ok raw)
    /\ (forall k, k ∉ ks -> resolve_property self k None = Ok (JStr k)).
Proof.
  intros Hpm. destruct (py_keys_dict pm) as (ks & Hks & Hnd & Hlen & Hin).
  exists ks. unfold get_property_aliases, resolve_property. rewrite Hpm.
  repeat split; try assumption.
  - intros k [raw Hraw]%Hin. exists raw. simpl. now rewrite Hraw.
  - intros k Hout. simpl.
    destruct (pm !! k) eqn:E; [|reflexivity].
    exfalso. apply Hout, Hin. eauto.
Qed.

(** X11.  The [default] argument of [resolve_property] matters only for
    an alias the map does not have: a non-empty default is returned in
    its place, while an empty default, like none, gives the alias. *)
Theorem resolve_property_default (self : Device) (pm : gmap string json)
    (alias : string) (default : option string) :
  property_map self = JDict pm ->
  (forall raw, pm !! alias = Some raw ->
               resolve_property self alias default = Ok raw)
  /\ (pm !! alias = None ->
      (forall d, default = Some d -> d <> EmptyString ->
                 resolve_property self alias default = Ok (JStr d))
      /\ (default = None \/ default = Some EmptyString ->
          resolve_property self alias default = Ok (JStr alias))).
Proof.
  intros Hpm. unfold resolve_property. rewrite Hpm. simpl.
  split; [intros raw ->; reflexivity|].
  intros Habs. rewrite Habs. simpl. split.
  - intros d -> Hd. destruct d; [congruence | reflexivity].
  - intros [-> | ->]; reflexivity.
Qed.

(** X12.  [get_property] asks the transport, once, for the raw key the
    property map gives the name, or for the name itself when the map
    does not have it; when the property map is not a dict it raises
    [AttributeError] and the transport is not asked. *)
Theorem get_property_reads_raw_key (self : Device) (name : string) (w : world) :
  (forall pm : gmap string json,
      property_map self = JDict pm ->
      get_property self name w
      = call (CallGetProperty (default (JStr name) (pm !! name)))
             (tr_get_property (transport self)
                (default (JStr name) (pm !! name))) w)
  /\ (is_dict (property_map self) = false ->
      exists msg, get_property self name w = (Raise (AttributeError msg), w)).
Proof.
  unfold get_property, resolve_property, bind, lift. split.
  - intros pm ->. simpl. destruct name; reflexivity.
  - intros Hd. destruct (property_map self); try discriminate Hd; cbn; eauto.
Qed.

End MoreCommands.

(** Witnesses for X6 to X12. *)
Lemma do_rejects_entry_without_command_witness :
  do quirky_device "Espresso" quiet_world
  = (Raise (ValueError "Command 'espresso' not implemented; check device_map."),
     quiet_world)
  /\ do quirky_device "ristretto" quiet_world
     = (Raise (ValueError
                 "Command 'ristretto' not implemented; check device_map."),
        quiet_world).
Proof.
  split.
  - exact (do_rejects_entry_without_command quirky_device quirky_map ∅
             "Espresso" quiet_world eq_refl eq_refl (or_introl eq_refl)).
  - exact (do_rejects_entry_without_command quirky_device quirky_map
             {[ "command" := JStr "" ]} "ristretto" quiet_world
             eq_refl eq_refl
             (or_intror (ex_intro _ (JStr "") (conj eq_refl eq_refl)))).
Defined.

Lemma do_malformed_command_map_witness :
  (exists msg, do quirky_device "tea" quiet_world
               = (Raise (AttributeError msg), quiet_world))
  /\ (exists msg, do quirky_device "mocha" quiet_world
                  = (Raise (TypeError msg), quiet_world)).
Proof.
  pose proof (do_malformed_command_map quirky_device "tea" quiet_world)
    as (_ & Htea & _).
  pose proof (do_malformed_command_map quirky_device "mocha" quiet_world)
    as (_ & _ & Hmocha).
  split.
  - exact (Htea quirky_map (JStr "a1") eq_refl eq_refl eq_refl).
  - refine (Hmocha quirky_map {[ "command" := JInt 161 ]} (JInt 161)
              eq_refl eq_refl eq_refl eq_refl _).
    intros s. discriminate.
Defined.

Lemma command_key_normal_form_witness :
  command_key "latte" <> "Latte"%string
  /\ lookup_command (JDict (delete "Latte"%string quirky_map))
       (command_key "latte")
     = lookup_command (JDict quirky_map) (command_key "latte").
Proof.
  pose proof (command_key_normal_form "latte" "Latte") as (_ & H1 & H2).
  assert (Hk : command_key "Latte" <> "Latte"%string) by discriminate.
  split; [exact (H1 Hk) | exact (H2 Hk quirky_map)].
Defined.

Lemma get_commands_lists_keys_witness :
  exists ks,
    get_commands latte_device = Ok ks
    /\ NoDup ks
    /\ length ks = size latte_map
    /\ (forall k, k ∈ ks <-> is_Some (latte_map !! k))
    /\ (forall alias w,
          command_key alias ∉ ks ->
          exists msg, do latte_device alias w = (Raise (ValueError msg), w)).
Proof. exact (get_commands_lists_keys latte_device latte_map eq_refl). Defined.

Lemma get_property_aliases_lists_keys_witness :
  exists ks,
    get_property_aliases latte_device = Ok ks
    /\ NoDup ks
    /\ length ks = size temp_map
    /\ (forall k, k ∈ ks ->
          exists raw, temp_map !! k = Some raw
                      /\ resolve_property latte_device k None = Ok raw)
    /\ (forall k, k ∉ ks ->
          resolve_property latte_device k None = Ok (JStr k)).
Proof.
  exact (get_property_aliases_lists_keys latte_device temp_map eq_refl).
Defined.

Lemma resolve_property_default_witness :
  resolve_property latte_device "temp" (Some "fallback"%string) = Ok (JStr "T1")
  /\ resolve_property latte_device "pressure" (Some "fallback"%string)
     = Ok (JStr "fallback")
  /\ resolve_property latte_device "pressure" (Some EmptyString)
     = Ok (JStr "pressure").
Proof.
  split; [|split].
  - exact (proj1 (resolve_property_default latte_device temp_map "temp"
                    (Some "fallback"%string) eq_refl) (JStr "T1") eq_refl).
  - refine (proj1 (proj2 (resolve_property_default latte_device temp_map
                            "pressure" (Some "fallback"%string) eq_refl)
                     eq_refl) "fallback"%string eq_refl _).
    discriminate.
  - exact (proj2 (proj2 (resolve_property_default latte_device temp_map
                           "pressure" (Some EmptyString) eq_refl) eq_refl)
             (or_intror eq_refl)).
Defined.

Lemma get_property_reads_raw_key_witness :
  get_property latte_device "temp" quiet_world
  = call (CallGetProperty (JStr "T1"))
         (tr_get_property (transport latte_device) (JStr "T1")) quiet_world
  /\ (exists msg, get_property quirky_device "temp" quiet_world
                  = (Raise (AttributeError msg), quiet_world)).
Proof.
  split.
  - exact (proj1 (get_property_reads_raw_key latte_device "temp" quiet_world)
             temp_map eq_refl).
  - exact (proj2 (get_property_reads_raw_key quirky_device "temp" quiet_world)
             eq_refl).
Defined.

(** ** More on loading and construction *)

Section MoreConstruction.
Context `{Collaborators}.

(** X13.  [_load_device_map] changes nothing in the world, and what it
    returns is always a dict: the empty one when there is no path or the
    document is of another type, the document itself otherwise. *)
Theorem load_device_map_returns_dict (path : option string) (w : world) :
  snd (_load_device_map path w) = w
  /\ (forall d, fst (_load_device_map path w) = Ok d -> is_dict d = true)
  /\ (opt_truthy path = false -> _load_device_map path w = (Ok (JDict ∅), w))
  /\ (forall p m, path = Some p -> p <> EmptyString ->
                  files w !! p = Some (Document (JDict m)) ->
                  _load_device_map path w = (Ok (JDict m), w)).
Proof.
  split; [|split; [|split]].
  - unfold _load_device_map, open_json_load, bind, ret.
    destruct path as [[|c p]|]; try reflexivity.
    cbn [str_truthy negb].
    destruct (files w !! String c p) as [[e|d]|]; reflexivity.
  - intros d. unfold _load_device_map, open_json_load, bind, ret.
    destruct path as [[|c p]|]; cbn [str_truthy negb fst];
      try (intros [= <-]; reflexivity).
    destruct (files w !! String c p) as [[e|d']|]; cbn [fst];
      try discriminate.
    intros [= <-]. now destruct d'.
  - intros Hp. unfold _load_device_map.
    destruct path as [[|c p]|]; try reflexivity. discriminate Hp.
  - intros p m -> Hne Hf. destruct p as [|c p]; [congruence|].
    unfold _load_device_map, open_json_load, bind, ret.
    cbn [str_truthy negb]. now rewrite Hf.
Qed.

(** Sequencing two steps that leave the world alone leaves it alone. *)
Lemma bind_pure {A B} (m : M A) (k : A -> M B) :
  (forall w, snd (m w) = w) -> (forall a w, snd (k a w) = w) ->
  forall w, snd (bind m k w) = w.
Proof.
  intros Hm Hk w. unfold bind. specialize (Hm w).
  destruct (m w) as [[a|e] w1]; cbn [snd] in Hm; subst w1;
    [apply Hk | reflexivity].
Qed.

Lemma load_device_map_pure path (w : world) :
  snd (_load_device_map path w) = w.
Proof.
  unfold _load_device_map, open_json_load, bind, ret.
  destruct path as [[|c p]|]; try reflexivity.
  cbn [str_truthy negb].
  destruct (files w !! String c p) as [[e|d]|]; reflexivity.
Qed.

(** The first half of [from_map] leaves the world as it was. *)
Lemma load_schema_pure cls_model path (w : world) :
  snd (load_schema cls_model path w) = w.
Proof.
  revert w. unfold load_schema. apply bind_pure.
  { intros w. destruct (negb (opt_truthy path)); [|reflexivity].
    destruct cls_model as [m|]; [|reflexivity].
    destruct (str_truthy m); reflexivity. }
  intros p. apply bind_pure; [apply load_device_map_pure|].
  intros map_data. repeat (apply bind_pure; [reflexivity|]; intros ?).
  reflexivity.
Qed.

(** X14.  A path given to [from_map] is the one used, whatever model the
    class names.  Without a path, a class that names a model loads the
    file [device_map] gives for it, and an exception of [device_map] is
    the outcome of [from_map], with nothing loaded and nothing called. *)
Theorem from_map_path_precedence (transport : DeviceTransport)
    (path : string) kw (w : world) :
  path <> EmptyString ->
  (forall c1 c2,
      from_map c1 transport (Some path) kw w
      = from_map c2 transport (Some path) kw w)
  /\ (forall m p0,
      m <> EmptyString -> opt_truthy p0 = false ->
      device_map m = Ok (Some path) ->
      from_map (Some m) transport p0 kw w
      = from_map None transport (Some path) kw w)
  /\ (forall m p0 e,
      m <> EmptyString -> opt_truthy p0 = false ->
      device_map m = Raise e ->
      from_map (Some m) transport p0 kw w = (Raise e, w)).
Proof.
  intros Hp. repeat split.
  - intros c1 c2. now rewrite !from_map_run, !(load_schema_path _ _ _ Hp).
  - intros m p0 Hm Hp0 Hdm. rewrite !from_map_run.
    replace (load_schema (Some m) p0 w) with (load_schema None (Some path) w);
      [reflexivity|].
    unfold load_schema, bind, lift, ret. rewrite Hp0. cbn [negb].
    destruct m as [|c m]; [congruence|]. cbn [str_truthy]. rewrite Hdm.
    destruct path as [|c' path]; [congruence | reflexivity].
  - intros m p0 e Hm Hp0 Hdm. rewrite from_map_run.
    unfold load_schema, bind, lift, ret. rewrite Hp0. cbn [negb].
    destruct m as [|c m]; [congruence|]. cbn [str_truthy]. now rewrite Hdm.
Qed.

(** X15.  What [from_map] does to the world, for keyword arguments
    the constructor accepts.  When loading the schema raises
    ([device_map], [open], [json.load] or the profile constructor),
    [from_map] raises that exception and nothing has happened: the
    transport was not called.  When the schema is loaded, [from_map]
    returns the device made of the transport it was given and the three
    loaded sections; a transport with [set_mappings] has received
    exactly that one call, with the very maps the device holds, and a
    transport without it has received none.  Clock and files are never
    changed. *)
Theorem from_map_effects cls_model (transport0 : DeviceTransport)
    path kw (w : world) :
  match load_schema cls_model path w with
  | (Raise e, _) => from_map cls_model transport0 path kw w = (Raise e, w)
  | (Ok (cm, pm, mp), _) =>
      exists w',
        from_map cls_model transport0 path kw w
        = (Ok (new_Device transport0 cm pm mp kw), w')
        /\ clock w' = clock w
        /\ files w' = files w
        /\ match tr_set_mappings transport0 with
           | Some _ => calls w' = calls w ++ [CallSetMappings cm pm]
           | None => w' = w
           end
  end.
Proof.
  rewrite from_map_run. pose proof (load_schema_pure cls_model path w) as Hw.
  destruct (load_schema cls_model path w) as [[[[cm pm] mp]|e] w1];
    cbn [snd] in Hw; subst w1; [|reflexivity].
  rewrite run_set_mappings_run.
  destruct (tr_set_mappings transport0) as [f|]; eexists; repeat split.
Qed.

End MoreConstruction.

(** Witness for X13: a file holding a device map. *)
Lemma load_device_map_returns_dict_witness :
  _load_device_map (Some "devices/latte.json"%string) latte_world
  = (Ok latte_document, latte_world)
  /\ _load_device_map (Some EmptyString) latte_world
     = (Ok (JDict ∅), latte_world).
Proof.
  pose proof (load_device_map_returns_dict
                (Some "devices/latte.json"%string) latte_world)
    as (_ & _ & _ & Hfile).
  pose proof (load_device_map_returns_dict (Some EmptyString) latte_world)
    as (_ & _ & Hnone & _).
  split.
  - refine (Hfile "devices/latte.json"%string _ eq_refl _ eq_refl).
    discriminate.
  - exact (Hnone eq_refl).
Defined.

(** Witness for X14: the class model ["latte"] leads to
    ["devices/latte.json"]. *)
Lemma from_map_path_precedence_witness :
  from_map (Some "latte"%string) queue_transport None no_kwargs latte_world
  = from_map None queue_transport (Some "devices/latte.json"%string) no_kwargs
      latte_world.
Proof.
  assert (Hp : "devices/latte.json"%string <> EmptyString) by discriminate.
  refine (proj1 (proj2 (from_map_path_precedence queue_transport
                          "devices/latte.json" no_kwargs latte_world Hp))
            "latte"%string None _ eq_refl eq_refl).
  discriminate.
Defined.

(** ** More on the monitor helpers *)

Section MoreMonitor.
Context `{Collaborators}.

(** X16.  With telemetry in the snapshot, [get_monitor_frame] returns
    the frame [from_b64] decodes from it, and [None] when [from_b64]
    raises: the decoder's exception does not reach the caller. *)
Theorem get_monitor_frame_decodes (self : Device) (w : world) s t'
    (raw : string) :
  tr_get_monitor (transport self) (tstate w) = (Ok s, t') ->
  raw_b64 s = Some raw -> raw <> EmptyString ->
  (forall frame, MonitorFrame_from_b64 raw = Ok frame ->
     get_monitor_frame self w
     = (Ok (Some frame), after_call w CallGetMonitor t'))
  /\ (forall e, MonitorFrame_from_b64 raw = Raise e ->
     get_monitor_frame self w = (Ok None, after_call w CallGetMonitor t')).
Proof.
  intros Hs Hraw Hne. unfold get_monitor_frame, bind.
  rewrite get_monitor_snapshot_run, Hs. cbn [fst snd]. rewrite Hraw.
  destruct raw as [|c raw]; [congruence|]. cbn [str_truthy negb].
  unfold try_except, bind, lift, ret.
  split; [intros frame -> | intros e ->]; reflexivity.
Qed.

(** X17.  An exception of the transport's [get_monitor] is not caught:
    [get_monitor_snapshot], [get_monitor] and [get_monitor_frame] all
    raise it, after the one call they make. *)
Theorem monitor_read_failure_propagates (self : Device) (w : world) e t' :
  tr_get_monitor (transport self) (tstate w) = (Raise e, t') ->
  get_monitor_snapshot self w = (Raise e, after_call w CallGetMonitor t')
  /\ get_monitor self w = (Raise e, after_call w CallGetMonitor t')
  /\ get_monitor_frame self w = (Raise e, after_call w CallGetMonitor t').
Proof.
  intros He. unfold get_monitor, get_monitor_frame, bind.
  rewrite !get_monitor_snapshot_run, He. repeat split.
Qed.

End MoreMonitor.

(** Witness for X16: the reading ["AAAA"] comes back as a frame. *)
Lemma get_monitor_frame_decodes_witness :
  get_monitor_frame latte_device one_reading_world
  = (Ok (Some "AAAA"%string),
     after_call one_reading_world CallGetMonitor (queue_state [])).
Proof.
  refine (proj1 (get_monitor_frame_decodes latte_device one_reading_world
                   (queue_snapshot (Some "AAAA"%string)) (queue_state [])
                   "AAAA" eq_refl eq_refl _)
            "AAAA"%string eq_refl).
  discriminate.
Defined.

(** Witness for X17: a transport that cannot be reached. *)
Lemma monitor_read_failure_propagates_witness :
  get_monitor_frame offline_device quiet_world
  = (Raise (OtherException "ConnectionError" "unreachable"),
     after_call quiet_world CallGetMonitor (queue_state [])).
Proof.
  exact (proj2 (proj2 (monitor_read_failure_propagates offline_device
                         quiet_world
                         (OtherException "ConnectionError" "unreachable")
                         (queue_state []) eq_refl))).
Defined.

(** ** From the file to the transport *)

Section EndToEnd.
Context `{Collaborators}.


End EndToEnd.

